(** * Outfit recommender backend: a shallow embedding of the agent pipeline

    The development follows the layout of [backend/app]:
    - [Py]          the Python built-ins the code relies on (strings, JSON
                    rendering, base64, exceptions as values);
    - [logs]        [app/utils/logs.py];
    - [state]       [app/agents/state.py];
    - [multi_model] [app/agents/multi_model.py];
    - [trending]    [app/agents/trending.py];
    - [analysis]    [app/agents/analysis.py];
    - [supervisor]  [app/agents/supervisor.py];
    - [config] and [analyze]  [app/agents/config.py], [app/routers/analyze.py].

    Calls that leave the process (the Gemini SDK, DSPy, PIL, the wall clock,
    the Files API) are fields of an environment record [Env]; each returns
    either a value or the exception it raised. *)

From Stdlib Require Import ZArith List String Ascii Bool Lia Sorted.
From Stdlib.Strings Require Import Byte.
Import ListNotations.

#[local] Set Warnings "-register-all".

Local Open Scope list_scope.
Local Open Scope string_scope.

(* ===================================================================== *)
(** ** Python built-ins                                                    *)
(* ===================================================================== *)

Module Py.

(** [bytes] objects. *)
Definition bytes := list byte.

(** An exception, kept as what [str(e)] renders. *)
Record exn := mkExn { exn_str : string }.

(** The outcome of a call that may raise. *)
Inductive result (A : Type) : Type :=
| Ok (a : A)
| Raise (e : exn).
Arguments Ok {A} a.
Arguments Raise {A} e.

Definition bind {A B} (r : result A) (k : A -> result B) : result B :=
  match r with
  | Ok a => k a
  | Raise e => Raise e
  end.

Notation "x <- c ;; k" := (bind c (fun x => k))
  (at level 61, c at next level, right associativity).

(** Dynamically typed values, as far as the pipeline stores them in the
    shared state or hands them to [json.dumps]. *)
Inductive pyval : Type :=
| VNone
| VBool (b : bool)
| VStr (s : string)
| VList (l : list pyval)
| VDict (d : list (string * pyval)).

(** [bool(v)]. *)
Definition truthy (v : pyval) : bool :=
  match v with
  | VNone => false
  | VBool b => b
  | VStr s => negb (String.eqb s "")
  | VList l => match l with [] => false | _ => true end
  | VDict d => match d with [] => false | _ => true end
  end.

(** [type(v).__name__]. *)
Definition typename (v : pyval) : string :=
  match v with
  | VNone => "NoneType"
  | VBool _ => "bool"
  | VStr _ => "str"
  | VList _ => "list"
  | VDict _ => "dict"
  end.

(** [isinstance(v, (dict, list))]. *)
Definition is_dict_or_list (v : pyval) : bool :=
  match v with
  | VList _ | VDict _ => true
  | _ => false
  end.

(** A dictionary with string keys and string values, in insertion order. *)
Definition strdict := list (string * string).

Fixpoint dict_get (d : strdict) (k : string) (default : string) : string :=
  match d with
  | [] => default
  | (k', v) :: d' => if String.eqb k' k then v else dict_get d' k default
  end.

Fixpoint dict_mem (d : strdict) (k : string) : bool :=
  match d with
  | [] => false
  | (k', _) :: d' => String.eqb k' k || dict_mem d' k
  end.

Definition dict_to_pyval (d : strdict) : pyval :=
  VDict (map (fun kv => (fst kv, VStr (snd kv))) d).

(** *** Strings *)

(** [s[:n]]. *)
Fixpoint slice_to (n : nat) (s : string) : string :=
  match n, s with
  | O, _ => ""
  | _, EmptyString => ""
  | S n', String c s' => String c (slice_to n' s')
  end.

(** [sep.join(parts)]. *)
Fixpoint join (sep : string) (parts : list string) : string :=
  match parts with
  | [] => ""
  | [p] => p
  | p :: rest => p ++ sep ++ join sep rest
  end.

Definition is_upper (c : ascii) : bool :=
  let n := nat_of_ascii c in (65 <=? n)%nat && (n <=? 90)%nat.

(** [str.lower] on one character; only the letters A-Z change (the
    strings of the model are sequences of code points below 256, and no
    code point outside A-Z lowers to an ASCII letter of an extension). *)
Definition lower_char (c : ascii) : ascii :=
  if is_upper c then ascii_of_nat (nat_of_ascii c + 32) else c.

Fixpoint lower (s : string) : string :=
  match s with
  | EmptyString => EmptyString
  | String c s' => String (lower_char c) (lower s')
  end.

(** [c in s] for a one-character [c]. *)
Fixpoint contains_char (c : ascii) (s : string) : bool :=
  match s with
  | EmptyString => false
  | String c' s' => Ascii.eqb c' c || contains_char c s'
  end.

(** [s.split(c)[0]]: the text before the first [c], or all of [s]. *)
Fixpoint split_first (c : ascii) (s : string) : string :=
  match s with
  | EmptyString => EmptyString
  | String c' s' => if Ascii.eqb c' c then EmptyString
                    else String c' (split_first c s')
  end.

(** [s.rsplit(c, 1)]: one piece when [c] does not occur, otherwise the
    text before the last [c] and the text after it. *)
Fixpoint rsplit1 (c : ascii) (s : string) : list string :=
  match s with
  | EmptyString => [EmptyString]
  | String c' s' =>
      match rsplit1 c s' with
      | [tl] => if Ascii.eqb c' c then [EmptyString; tl] else [String c' tl]
      | hd :: rest => String c' hd :: rest
      | [] => []
      end
  end.

(** [l[1]], when there is one. *)
Definition item1 {A} (l : list A) : option A := nth_error l 1.

(** White space as [str.strip()] sees it, among the code points below 256. *)
Definition is_space (c : ascii) : bool :=
  let n := nat_of_ascii c in
  ((9 <=? n)%nat && (n <=? 13)%nat) || ((28 <=? n)%nat && (n <=? 32)%nat)
  || (n =? 133)%nat || (n =? 160)%nat.

Fixpoint lstrip (s : string) : string :=
  match s with
  | EmptyString => EmptyString
  | String c s' => if is_space c then lstrip s' else s
  end.

Fixpoint rstrip (s : string) : string :=
  match s with
  | EmptyString => EmptyString
  | String c s' =>
      match rstrip s' with
      | EmptyString => if is_space c then EmptyString else String c EmptyString
      | r => String c r
      end
  end.

Definition strip (s : string) : string := rstrip (lstrip s).

(** [x in s] for strings, as a proposition. *)
Definition Substring (x s : string) : Prop :=
  exists pre post, s = pre ++ x ++ post.

(** *** [json.dumps(v, ensure_ascii=True)] *)

Definition dquote : ascii := ascii_of_nat 34.

Definition hex_digit (n : nat) : ascii :=
  if (n <? 10)%nat then ascii_of_nat (48 + n) else ascii_of_nat (87 + n).

(** [\uXXXX] for a code point below 256. *)
Definition u_escape (c : ascii) : string :=
  let n := nat_of_ascii c in
  String "\" (String "u" (String "0" (String "0"
    (String (hex_digit (n / 16)) (String (hex_digit (n mod 16)) ""))))).

Definition json_escape_char (c : ascii) : string :=
  let n := nat_of_ascii c in
  if (n =? 34)%nat then String "\" (String dquote "")
  else if (n =? 92)%nat then String "\" (String "\" "")
  else if (n =? 10)%nat then String "\" "n"
  else if (n =? 13)%nat then String "\" "r"
  else if (n =? 9)%nat then String "\" "t"
  else if (n =? 12)%nat then String "\" "f"
  else if (n =? 8)%nat then String "\" "b"
  else if ((32 <=? n)%nat && (n <=? 126)%nat) then String c ""
  else u_escape c.

Fixpoint json_escape (s : string) : string :=
  match s with
  | EmptyString => EmptyString
  | String c s' => json_escape_char c ++ json_escape s'
  end.

Definition json_quote (s : string) : string :=
  String dquote (json_escape s ++ String dquote "").

Fixpoint json_dumps (v : pyval) : string :=
  match v with
  | VNone => "null"
  | VBool true => "true"
  | VBool false => "false"
  | VStr s => json_quote s
  | VList l => "[" ++ join ", " (map json_dumps l) ++ "]"
  | VDict d =>
      "{" ++ join ", "
               (map (fun kv : string * pyval => let (k, x) := kv in
                               json_quote k ++ ": " ++ json_dumps x) d)
          ++ "}"
  end.

(** *** [base64.b64encode] *)

Definition b64_alphabet : string :=
  "ABCDEFGHIJKLMNOPQRSTUVWXYZabcdefghijklmnopqrstuvwxyz0123456789+/".

Definition b64_char (n : N) : ascii :=
  match String.get (N.to_nat n) b64_alphabet with
  | Some c => c
  | None => "="%char
  end.

Fixpoint b64encode (b : bytes) : string :=
  match b with
  | [] => ""
  | [x] =>
      let n := Byte.to_N x in
      String (b64_char (N.shiftr n 2))
        (String (b64_char (N.shiftl (N.land n 3) 4)) "==")
  | [x; y] =>
      let n := Byte.to_N x in
      let m := Byte.to_N y in
      String (b64_char (N.shiftr n 2))
        (String (b64_char (N.lor (N.shiftl (N.land n 3) 4) (N.shiftr m 4)))
           (String (b64_char (N.shiftl (N.land m 15) 2)) "="))
  | x :: y :: z :: rest =>
      let n := Byte.to_N x in
      let m := Byte.to_N y in
      let k := Byte.to_N z in
      String (b64_char (N.shiftr n 2))
        (String (b64_char (N.lor (N.shiftl (N.land n 3) 4) (N.shiftr m 4)))
           (String (b64_char (N.lor (N.shiftl (N.land m 15) 2) (N.shiftr k 6)))
              (String (b64_char (N.land k 63)) (b64encode rest))))
  end.

End Py.

Import Py.

(* ===================================================================== *)
(** ** The Gemini response shapes read by [multi_model]                    *)
(* ===================================================================== *)

Module gemini.

(** [inline_data.data]: [bytes], [str], or an object of another type, of
    which only the truth value is read. *)
Inductive blob_data : Type :=
| DataBytes (b : bytes)
| DataStr (s : string)
| DataOther (is_true : bool).

(** [part.inline_data]; [data = None] is an absent or [None] attribute. *)
Record Blob := mkBlob {
  data : option blob_data;
  blob_mime_type : option string
}.

(** [part.file_data]. *)
Record FileData := mkFileData {
  file_uri : option string;
  file_mime_type : option string
}.

(** A response part; [None] is an attribute that is absent or falsy. *)
Record Part := mkPart {
  inline_data : option Blob;
  file_data : option FileData
}.

(** A candidate; [content_parts = None] when the candidate has no content
    or the content has no [parts]. *)
Record Candidate := mkCandidate {
  content_parts : option (list Part)
}.

(** A response. [parts] is what reading [response.parts] gives: the
    parts, [Ok None] when the attribute is absent (the [AttributeError]
    that [hasattr] absorbs) or holds nothing, or the exception the
    accessor raises, which [hasattr] lets through. *)
Record Response := mkResponse {
  candidates : option (list Candidate);
  parts : result (option (list Part))
}.

(** A decoded picture, identified by the bytes it was opened from. *)
Definition PILImage := bytes.

(** An element of the [messages] list sent to the image model. *)
Inductive Message : Type :=
| MText (s : string)
| MImage (i : PILImage).

End gemini.

(* ===================================================================== *)
(** ** The environment                                                     *)
(* ===================================================================== *)

(** The five outputs of the [AnalyzeOutfitImage] signature. *)
Record OutfitFeatures := mkFeatures {
  r_gender_style : string;
  r_cut : string;
  r_color : string;
  r_fabric : string;
  r_occasion : string
}.

Record Env := mkEnv {
  (** the k-th reading of [datetime.now(timezone.utc)] of the run, in
      microseconds since the epoch *)
  now_utc : nat -> Z;
  (** [genai.GenerativeModel(name)] *)
  GenerativeModel : string -> result unit;
  (** [Image.open(io.BytesIO(b))] *)
  Image_open : bytes -> result gemini.PILImage;
  (** [image.load()] *)
  Image_load : gemini.PILImage -> result unit;
  (** [model.generate_content([prompt, image]).text] for the named model *)
  generate_text : string -> string -> gemini.PILImage -> result string;
  (** [dspy.ChainOfThought(AnalyzeOutfitImage)(image_description, user_query)] *)
  AnalyzeOutfitImage : string -> string -> result OutfitFeatures;
  (** [dspy.ChainOfThought(FetchRelevantTrends)(gender_style, occasion, user_query)]
      and its [trend_summary] *)
  FetchRelevantTrends : string -> string -> string -> result string;
  (** [dspy.ChainOfThought(SynthesizeStylingAdvice)(...)] and its [advice]:
      query, gender_style, cut, color, fabric, occasion, trends *)
  SynthesizeStylingAdvice :
    string -> string -> string -> string -> string -> string -> string ->
    result string;
  (** [image_model.generate_content(messages, generation_config=...)];
      [None] is a falsy response *)
  generate_image : list gemini.Message -> result (option gemini.Response);
  (** [base64.b64decode] *)
  b64decode : string -> result bytes;
  (** [genai_files.get_file(file_uri)] and the [uri] of the reference *)
  get_file : string -> result (option string);
  (** [urllib.request.urlopen(uri)] and [read()] *)
  urlopen_read : string -> result bytes;
  (** [dspy.LM(model_name, ...)] followed by [dspy.configure(lm=lm)] *)
  dspy_configure : string -> result unit;
  (** the order in which the interpreter iterates [ALLOWED_EXTENSIONS] *)
  set_iteration : list string -> list string
}.

(* ===================================================================== *)
(** ** [app/agents/state.py]                                               *)
(* ===================================================================== *)

Module state.

(** [AgentLogEntry]. The timestamp is kept as the instant the source
    renders in ISO-8601: whole seconds since the epoch, UTC. *)
Record AgentLogEntry := mkEntry {
  agent : string;
  message : string;
  level : string;
  timestamp : Z;
  details : option string
}.

(** [AgentState]. [None] is a key that is absent (or holds [None]), which
    is what [state.get] tells apart from a value. *)
Record AgentState := mkState {
  original_image : option bytes;
  user_query : option string;
  visual_analysis : option strdict;
  trend_summary : option string;
  final_report : option pyval;
  generated_image_url : option string;
  generation_prompt : option string;
  agent_logs : option (list AgentLogEntry);
  analysis_mode : option string;
  image_generation_error : option string
}.

Definition set_agent_logs (s : AgentState) (l : list AgentLogEntry) :=
  mkState (original_image s) (user_query s) (visual_analysis s)
          (trend_summary s) (final_report s) (generated_image_url s)
          (generation_prompt s) (Some l) (analysis_mode s)
          (image_generation_error s).

Definition set_image_generation_error (s : AgentState) (e : option string) :=
  mkState (original_image s) (user_query s) (visual_analysis s)
          (trend_summary s) (final_report s) (generated_image_url s)
          (generation_prompt s) (agent_logs s) (analysis_mode s) e.

(** [state.get(key, default)]. *)
Definition get {A} (field : option A) (default : A) : A :=
  match field with
  | Some v => v
  | None => default
  end.

(** The state dictionary a stage mutates, and the number of clock readings
    taken so far in the run. *)
Record Run := mkRun {
  st : AgentState;
  clock_reads : nat
}.

Definition logs_of (r : Run) : list AgentLogEntry := get (agent_logs (st r)) [].

End state.

Import state.

(* ===================================================================== *)
(** ** [app/utils/logs.py]                                                 *)
(* ===================================================================== *)

Module logs.

(** [datetime.now(timezone.utc).replace(microsecond=0)]. *)
Definition utc_seconds (micros : Z) : Z := (micros / 1000000)%Z.

(** The [details] entry: absent for [None], the first 800 characters of
    the JSON rendering for a [dict] or [list], [str(details)] otherwise. *)
Definition render_details (d : pyval) : option string :=
  match d with
  | VNone => None
  | VDict _ | VList _ => Some (slice_to 800 (json_dumps d))
  | VStr s => Some s
  | VBool true => Some "True"
  | VBool false => Some "False"
  end.

Definition append_agent_log (env : Env) (r : Run)
    (agent message level : string) (details : pyval) : Run :=
  let logs := get (agent_logs (st r)) [] in
  let stamp := utc_seconds (now_utc env (clock_reads r)) in
  let entry := mkEntry agent message level stamp (render_details details) in
  mkRun (set_agent_logs (st r) (logs ++ [entry])%list) (S (clock_reads r)).

End logs.

(* ===================================================================== *)
(** ** [app/agents/multi_model.py]                                         *)
(* ===================================================================== *)

Module multi_model.

Import gemini.

Definition nl : string := String (ascii_of_nat 10) "".

Definition VISION_MODELS : strdict :=
  [("quick", "gemini-2.5-flash"); ("deep", "gemini-2.5-pro")].

Definition IMAGE_MODEL : string := "gemini-2.5-flash-image".

Definition desc_prompt : string :=
  nl ++
  "        Describe this outfit image in detail. Include:" ++ nl ++
  "        - Gender presentation (masculine/feminine/unisex)" ++ nl ++
  "        - Type of garments (shirt, pants, dress, etc.)" ++ nl ++
  "        - Style and fit" ++ nl ++
  "        - Colors and patterns" ++ nl ++
  "        - Apparent fabric types" ++ nl ++
  "        - Overall vibe and formality level" ++ nl ++
  "        ".

(** The dictionary [analyze_image] returns. *)
Record VisionResult := mkVisionResult {
  vis_visual_analysis : strdict;
  vis_agent_logs : list AgentLogEntry
}.

(** [state["original_image"]]: a [KeyError] when the key is absent. *)
Definition index_original_image (s : AgentState) : result bytes :=
  match original_image s with
  | Some b => Ok b
  | None => Raise (mkExn "'original_image'")
  end.

Definition unknown_analysis (e : exn) : strdict :=
  [("gender_style", "unknown"); ("cut", "unknown"); ("color", "unknown");
   ("fabric", "unknown"); ("occasion", "unknown"); ("error", exn_str e)].

Definition analysis_of (f : OutfitFeatures) : strdict :=
  [("gender_style", r_gender_style f); ("cut", r_cut f);
   ("color", r_color f); ("fabric", r_fabric f);
   ("occasion", r_occasion f)].

(** The five keys every [visual_analysis] carries. *)
Definition FEATURE_KEYS : list string :=
  ["gender_style"; "cut"; "color"; "fabric"; "occasion"].

(** The body of the [try] block up to the structured result: the first
    call that raises ends it. *)
Definition vision_attempt (env : Env) (vision_model : string) (s : AgentState)
  : result OutfitFeatures :=
  _ <- GenerativeModel env vision_model ;;
  raw <- index_original_image s ;;
  image <- Image_open env raw ;;
  image_description <- generate_text env vision_model desc_prompt image ;;
  AnalyzeOutfitImage env image_description (get (user_query s) "").

Definition vision_model_of (s : AgentState) : string :=
  dict_get VISION_MODELS (get (analysis_mode s) "deep")
           (dict_get VISION_MODELS "deep" "").

Definition analyze_image (env : Env) (r : Run) : VisionResult * Run :=
  let mode := get (analysis_mode (st r)) "deep" in
  let vision_model := vision_model_of (st r) in
  let r1 := logs.append_agent_log env r "vision" "Starting image analysis"
              "info" (VDict [("mode", VStr mode); ("model", VStr vision_model)]) in
  let '(analysis, r2) :=
    match vision_attempt env vision_model (st r1) with
    | Ok res =>
        let analysis := analysis_of res in
        (analysis,
         logs.append_agent_log env r1 "vision" "Completed image analysis"
           "info" (dict_to_pyval analysis))
    | Raise e =>
        (unknown_analysis e,
         logs.append_agent_log env r1 "vision" "Failed to analyze image"
           "error" (VStr (exn_str e)))
    end in
  (mkVisionResult analysis (logs_of r2), r2).

(** [_download_file_bytes]. *)
Definition _download_file_bytes (env : Env) (file_uri : string) : option bytes :=
  match get_file env file_uri with
  | Ok (Some uri) =>
      if String.eqb uri "" then None
      else match urlopen_read env uri with
           | Ok b => Some b
           | Raise _ => None
           end
  | Ok None => None
  | Raise _ => None
  end.

Definition nonempty_bytes (b : bytes) : bool :=
  match b with [] => false | _ => true end.

(** The inline branch of the loop body of [_extract_image_bytes]: what it
    returns, or [None] when control falls through to the file branch. *)
Definition inline_branch (env : Env) (p : Part)
  : option (bytes * option string) :=
  match inline_data p with
  | Some blob =>
      let mime_type := blob_mime_type blob in
      match data blob with
      | Some (DataBytes b) =>
          if nonempty_bytes b then Some (b, mime_type) else None
      | Some (DataStr s) =>
          if String.eqb s "" then None
          else match b64decode env s with
               | Ok b => Some (b, mime_type)
               | Raise _ => None
               end
      | Some (DataOther _) => None
      | None => None
      end
  | None => None
  end.

(** The file branch of the loop body. *)
Definition file_branch (env : Env) (p : Part)
  : option (bytes * option string) :=
  match file_data p with
  | Some fd =>
      match file_uri fd with
      | Some uri =>
          if String.eqb uri "" then None
          else match _download_file_bytes env uri with
               | Some b =>
                   if nonempty_bytes b then Some (b, file_mime_type fd)
                   else None
               | None => None
               end
      | None => None
      end
  | None => None
  end.

(** One pass of the inner loop body. *)
Definition extract_part (env : Env) (p : Part)
  : option (bytes * option string) :=
  match inline_branch env p with
  | Some x => Some x
  | None => file_branch env p
  end.

(** [for part in parts or []], returning from the function at the first
    part that yields. *)
Fixpoint scan_parts (env : Env) (ps : list Part)
  : option (bytes * option string) :=
  match ps with
  | [] => None
  | p :: ps' =>
      match extract_part env p with
      | Some x => Some x
      | None => scan_parts env ps'
      end
  end.

(** [for parts in parts_iterables]. *)
Fixpoint scan_iterables (env : Env) (pss : list (list Part))
  : option (bytes * option string) :=
  match pss with
  | [] => None
  | ps :: pss' =>
      match scan_parts env ps with
      | Some x => Some x
      | None => scan_iterables env pss'
      end
  end.

(** What the loop over [response.candidates] appends to
    [parts_iterables]. *)
Definition candidate_parts (resp : Response) : list (list Part) :=
  flat_map (fun c => match content_parts c with
                     | Some ps => [ps]
                     | None => []
                     end)
           (match candidates resp with Some cs => cs | None => [] end).

(** What [response.parts], once read, appends. *)
Definition own_parts (own : option (list Part)) : list (list Part) :=
  match own with
  | Some (p :: ps) => [p :: ps]
  | _ => []
  end.

(** The list [parts_iterables] the function builds before the loops;
    [hasattr(response, "parts")] reads the accessor and raises what it
    raises. *)
Definition parts_iterables (resp : Response) : result (list (list Part)) :=
  own <- parts resp ;;
  Ok (candidate_parts resp ++ own_parts own)%list.

Definition _extract_image_bytes (env : Env) (response : option Response)
  : result (option bytes * option string) :=
  match response with
  | None => Ok (None, None)
  | Some resp =>
      pss <- parts_iterables resp ;;
      Ok (match scan_iterables env pss with
          | Some (b, mime_type) => (Some b, mime_type)
          | None => (None, None)
          end)
  end.

(** [x or default] for an optional string. *)
Definition or_else (x : option string) (default : string) : string :=
  match x with
  | Some v => if String.eqb v "" then default else v
  | None => default
  end.

Definition identity_directive : string :=
  "Generate a new image that keeps the exact same person, face, facial expression, pose, body type, and background from the reference image. Only change the clothing and outfit to match the professional styling guidance provided. Do not alter the person's appearance, hair, or any other physical features.".

(** [messages] before the reference image is attached. *)
Definition text_messages (prompt : string) (stylist_advice : option string)
  : list Message :=
  (MText identity_directive
   :: match stylist_advice with
      | Some a =>
          if String.eqb a "" then []
          else [MText ("Styling guidance to apply:" ++ nl ++ a)]
      | None => []
      end
   ++ [MText prompt])%list.

(** The inner [try] around [Image.open] and [load]: the picture to attach,
    or nothing when there is no image or it cannot be loaded. *)
Definition reference_messages (env : Env) (base_image : option bytes)
  : list Message :=
  match base_image with
  | Some b =>
      if nonempty_bytes b then
        match (img <- Image_open env b ;;
               _ <- Image_load env img ;;
               Ok img) with
        | Ok img => [MImage img]
        | Raise _ => []
        end
      else []
  | None => []
  end.

Definition data_url (mime_type encoded : string) : string :=
  "data:" ++ mime_type ++ ";base64," ++ encoded.

Definition _generate_image_from_gemini (env : Env) (prompt : string)
    (base_image : option bytes) (stylist_advice : option string)
  : option string * option string :=
  let attempt : result (option string * option string) :=
    _ <- GenerativeModel env IMAGE_MODEL ;;
    let messages :=
      (text_messages prompt stylist_advice
       ++ reference_messages env base_image)%list in
    response <- generate_image env messages ;;
    extracted <- _extract_image_bytes env response ;;
    Ok (match extracted with
        | (Some image_bytes, mime_type) =>
            if nonempty_bytes image_bytes then
              let encoded := b64encode image_bytes in
              let mime_type := or_else mime_type "image/png" in
              (Some (data_url mime_type encoded), Some mime_type)
            else (None, None)
        | (None, _) => (None, None)
        end) in
  match attempt with
  | Ok res => res
  | Raise _ => (None, None)
  end.

(** The dictionary [generate_outfit] returns. *)
Record OutfitResult := mkOutfitResult {
  out_generated_image_url : option string;
  out_generation_prompt : string;
  out_image_generation_error : option string;
  out_agent_logs : list AgentLogEntry
}.

(** The [AttributeError] of reading [attr] on a value that has none. *)
Definition attribute_error (v : pyval) (attr : string) : exn :=
  mkExn ("'" ++ typename v ++ "' object has no attribute '" ++ attr ++ "'").

(** [advice.split(".")[0] if advice else "Professional outfit"]. *)
Definition outfit_line (advice : pyval) : result string :=
  if truthy advice then
    match advice with
    | VStr s => Ok (split_first "." s)
    | v => Raise (attribute_error v "split")
    end
  else Ok "Professional outfit".

(** The formatted [generation_prompt], after [strip()]. *)
Definition build_prompt (outfit : string) (visual : strdict) (query : string)
  : string :=
  strip
    (nl ++
     "Professional fashion editorial photography:" ++ nl ++
     "- Outfit: " ++ outfit ++ nl ++
     "- Style: " ++ dict_get visual "cut" "modern tailored fit" ++ nl ++
     "- Colors: " ++ dict_get visual "color" "neutral professional tones" ++ nl ++
     "- Fabric: " ++ dict_get visual "fabric" "high-quality materials" ++ nl ++
     "- Occasion: " ++ dict_get visual "occasion" "professional setting" ++ nl ++
     "- Personal request: "
       ++ or_else (Some query) "Tailor to the user's stated preference" ++ nl ++
     "- IMPORTANT: Keep the exact same person, face, facial expression, pose, and background from the reference image. Only change the clothing/outfit to match the new style guidance." ++ nl ++
     "- Setting: Same background as reference image, professional lighting" ++ nl ++
     "- Shot: Full body, same pose and composition as reference image, high detail, 8K quality" ++ nl ++
     "- Mood: Sophisticated, professional, current trends" ++ nl ++
     "- Reference: Use the provided outfit photo as base - preserve the person's identity, face, hair, body type, pose, and background completely unchanged. Only modify the wardrobe items." ++ nl ++
     "        ").

(** The advice as [_generate_image_from_gemini] receives it: past
    [outfit_line] it is a string or a falsy value, and a falsy value is
    skipped there like [None]. *)
Definition optional_str (v : pyval) : option string :=
  match v with
  | VStr s => Some s
  | _ => None
  end.

Definition with_error (r : Run) (e : option string) : Run :=
  mkRun (set_image_generation_error (st r) e) (clock_reads r).

Definition NO_CONTENT : string := "Gemini image generation returned no content".

Definition generate_outfit (env : Env) (r : Run) : OutfitResult * Run :=
  let r0 := with_error r None in
  let r1 :=
    logs.append_agent_log env r0 "generator" "Preparing outfit visualization"
      "info"
      (VDict [("mode", VStr (get (analysis_mode (st r0)) "deep"));
              ("has_advice",
               VBool (truthy (get (final_report (st r0)) VNone)))]) in
  let advice := get (final_report (st r1)) (VStr "") in
  let visual := get (visual_analysis (st r1)) [] in
  let query := get (user_query (st r1)) "" in
  let '(generated_url, generation_prompt, r2) :=
    match outfit_line advice with
    | Ok outfit =>
        let generation_prompt := build_prompt outfit visual query in
        let '(generated_url, mime_type) :=
          _generate_image_from_gemini env generation_prompt
            (original_image (st r1)) (optional_str advice) in
        if truthy (match generated_url with Some u => VStr u | None => VNone end)
        then
          (generated_url, generation_prompt,
           logs.append_agent_log env r1 "generator"
             "Generated upgraded outfit image" "info"
             (VDict [("mime_type", VStr (or_else mime_type "unknown"))]))
        else
          (None, generation_prompt,
           logs.append_agent_log env (with_error r1 (Some NO_CONTENT))
             "generator" NO_CONTENT "warning" VNone)
    | Raise e =>
        (None, "",
         logs.append_agent_log env (with_error r1 (Some (exn_str e)))
           "generator" "Failed to generate outfit visualization" "error"
           (VStr (exn_str e)))
    end in
  (mkOutfitResult generated_url generation_prompt
     (image_generation_error (st r2)) (logs_of r2), r2).

End multi_model.

(* ===================================================================== *)
(** ** [app/agents/trending.py]                                            *)
(* ===================================================================== *)

Module trending.

(** The dictionary [fetch_trends] returns. *)
Record TrendResult := mkTrendResult {
  tr_trend_summary : string;
  tr_agent_logs : list AgentLogEntry
}.

(** The generic trends of the [except] branch. *)
Definition fallback_trends (gender_style occasion : string) : string :=
  "Current fashion trends for " ++ gender_style ++ " " ++ occasion
    ++ " wear focus on "
    ++ "quality fabrics, versatile pieces, and sustainable choices. "
    ++ "Neutral colors and classic silhouettes remain popular.".

Definition fetch_trends (env : Env) (r : Run) : TrendResult * Run :=
  let visual := get (visual_analysis (st r)) [] in
  let user_query := get (user_query (st r)) "" in
  let gender_style := dict_get visual "gender_style" "unisex" in
  let occasion := dict_get visual "occasion" "casual" in
  let r1 :=
    logs.append_agent_log env r "trends" "Collecting trend context" "info"
      (VDict [("gender_style", VStr gender_style);
              ("occasion", VStr occasion);
              ("mode", VStr (get (analysis_mode (st r)) "deep"))]) in
  let '(trends, r2) :=
    match FetchRelevantTrends env gender_style occasion user_query with
    | Ok trends =>
        (trends,
         logs.append_agent_log env r1 "trends" "Produced trend summary"
           "info" (VStr (slice_to 300 trends)))
    | Raise e =>
        (fallback_trends gender_style occasion,
         logs.append_agent_log env r1 "trends"
           "Failed to fetch trends; using fallback" "warning"
           (VStr (exn_str e)))
    end in
  (mkTrendResult trends (logs_of r2), r2).

End trending.

(* ===================================================================== *)
(** ** [app/agents/analysis.py]                                            *)
(* ===================================================================== *)

Module analysis.

(** The dictionary [synthesize_advice] returns. *)
Record AdviceResult := mkAdviceResult {
  adv_final_report : string;
  adv_agent_logs : list AgentLogEntry
}.

Definition APOLOGY : string :=
  "Unable to generate personalized advice at this time. "
    ++ "Please try again later or consult with a fashion professional.".

Definition synthesize_advice (env : Env) (r : Run) : AdviceResult * Run :=
  let r1 :=
    logs.append_agent_log env r "advisor" "Generating styling advice" "info"
      (VDict [("mode", VStr (get (analysis_mode (st r)) "deep"))]) in
  let visual := get (visual_analysis (st r1)) [] in
  let trends := get (trend_summary (st r1)) "" in
  let query := get (user_query (st r1)) "" in
  let '(advice, r2) :=
    match SynthesizeStylingAdvice env query
            (dict_get visual "gender_style" "unisex")
            (dict_get visual "cut" "unknown")
            (dict_get visual "color" "unknown")
            (dict_get visual "fabric" "unknown")
            (dict_get visual "occasion" "casual")
            trends with
    | Ok advice =>
        (advice,
         logs.append_agent_log env r1 "advisor" "Completed styling advice"
           "info" (VStr (slice_to 300 advice)))
    | Raise e =>
        (APOLOGY,
         logs.append_agent_log env r1 "advisor"
           "Failed to generate styling advice" "error" (VStr (exn_str e)))
    end in
  (mkAdviceResult advice (logs_of r2), r2).

End analysis.

(* ===================================================================== *)
(** ** [app/agents/supervisor.py]                                          *)
(* ===================================================================== *)

Module supervisor.

(** The graph writes each key of the dictionary a node returns over the
    value the state held. *)
Definition merge_vision (s : AgentState) (u : multi_model.VisionResult) :=
  mkState (original_image s) (user_query s)
          (Some (multi_model.vis_visual_analysis u))
          (trend_summary s) (final_report s) (generated_image_url s)
          (generation_prompt s) (Some (multi_model.vis_agent_logs u))
          (analysis_mode s) (image_generation_error s).

Definition merge_trends (s : AgentState) (u : trending.TrendResult) :=
  mkState (original_image s) (user_query s) (visual_analysis s)
          (Some (trending.tr_trend_summary u)) (final_report s)
          (generated_image_url s) (generation_prompt s)
          (Some (trending.tr_agent_logs u))
          (analysis_mode s) (image_generation_error s).

Definition merge_advice (s : AgentState) (u : analysis.AdviceResult) :=
  mkState (original_image s) (user_query s) (visual_analysis s)
          (trend_summary s) (Some (VStr (analysis.adv_final_report u)))
          (generated_image_url s) (generation_prompt s)
          (Some (analysis.adv_agent_logs u))
          (analysis_mode s) (image_generation_error s).

Definition merge_outfit (s : AgentState) (u : multi_model.OutfitResult) :=
  mkState (original_image s) (user_query s) (visual_analysis s)
          (trend_summary s) (final_report s)
          (multi_model.out_generated_image_url u)
          (Some (multi_model.out_generation_prompt u))
          (Some (multi_model.out_agent_logs u))
          (analysis_mode s)
          (multi_model.out_image_generation_error u).

(** One node of the graph: run the stage on the current state and merge
    what it returns. *)
Definition node {U} (stage : Env -> Run -> U * Run)
    (merge : AgentState -> U -> AgentState) (env : Env) (r : Run) : Run :=
  let '(u, r') := stage env r in
  mkRun (merge (st r) u) (clock_reads r').

Definition analyze_image_node := node multi_model.analyze_image merge_vision.
Definition fetch_trends_node := node trending.fetch_trends merge_trends.
Definition synthesize_advice_node := node analysis.synthesize_advice merge_advice.
Definition generate_outfit_node := node multi_model.generate_outfit merge_outfit.

(** The edges of [build_graph]: entry point, three edges, and the end. *)
Definition graph_order : list (Env -> Run -> Run) :=
  [analyze_image_node; fetch_trends_node;
   synthesize_advice_node; generate_outfit_node].

Definition run_nodes (env : Env) (nodes : list (Env -> Run -> Run)) (r : Run)
  : Run :=
  fold_left (fun acc n => n env acc) nodes r.

(** The state after the first [k] nodes of a run. *)
Definition after (env : Env) (k : nat) (initial : AgentState) : Run :=
  run_nodes env (firstn k graph_order) (mkRun initial 0).

(** [agent_graph.invoke(initial_state)]. *)
Definition invoke (env : Env) (initial : AgentState) : AgentState :=
  st (run_nodes env graph_order (mkRun initial 0)).

End supervisor.

(* ===================================================================== *)
(** ** [app/agents/config.py]                                              *)
(* ===================================================================== *)

Module config.

Definition LM_MAP : strdict :=
  [("quick", "gemini/gemini-2.5-flash"); ("deep", "gemini/gemini-2.5-pro")].

(** [configure_lm]; the module-level [_current_mode] is passed in and
    returned. *)
Definition configure_lm (env : Env) (_current_mode : option string)
    (mode : string) : result (string * option string) :=
  let normalized := lower mode in
  let normalized := if dict_mem LM_MAP normalized then normalized else "deep" in
  let model_name := dict_get LM_MAP normalized "" in
  match _current_mode with
  | Some m =>
      if String.eqb m normalized then Ok (model_name, _current_mode)
      else _ <- dspy_configure env model_name ;;
           Ok (model_name, Some normalized)
  | None =>
      _ <- dspy_configure env model_name ;;
      Ok (model_name, Some normalized)
  end.

End config.

(* ===================================================================== *)
(** ** [app/routers/analyze.py]                                            *)
(* ===================================================================== *)

Module analyze.

Definition MAX_FILE_SIZE : N := (10 * 1024 * 1024)%N.
Definition ALLOWED_EXTENSIONS : list string :=
  ["png"; "jpg"; "jpeg"; "gif"; "webp"].
Definition DEFAULT_QUERY : string := "What should I wear for a wedding?".

Definition _allowed_file (filename : string) : bool :=
  contains_char "." filename
  && match item1 (rsplit1 "." filename) with
     | Some ext => existsb (String.eqb (lower ext)) ALLOWED_EXTENSIONS
     | None => false
     end.

(** An uploaded file: its name and what [file.read()] returns. *)
Record FileStorage := mkFile {
  filename : string;
  payload : bytes
}.

(** The multipart form: [request.files["image"]] and the two text fields. *)
Record Request := mkRequest {
  files_image : option FileStorage;
  form_query : option string;
  form_mode : option string
}.

(** [_validate_request]: the file and the query, or an error dictionary
    and a status. *)
Definition _validate_request (env : Env) (req : Request)
  : (FileStorage * string) + (strdict * nat) :=
  match files_image req with
  | None => inr ([("error", "No image file provided")], 400)
  | Some file =>
      if String.eqb (filename file) ""
      then inr ([("error", "No file selected")], 400)
      else if negb (_allowed_file (filename file))
      then inr ([("error",
                  "Invalid file type. Allowed: "
                    ++ join ", " (set_iteration env ALLOWED_EXTENSIONS))],
                400)
      else inl (file, get (form_query req) DEFAULT_QUERY)
  end.

(** The JSON object of a successful response. *)
Record ResponseData := mkResponseData {
  resp_visual_analysis : option strdict;
  resp_trend_summary : option string;
  resp_final_report : option pyval;
  resp_generated_image_url : option string;
  resp_agent_logs : list AgentLogEntry;
  resp_analysis_mode : string;
  resp_generation_prompt : option string;
  resp_image_generation_error : option string
}.

Inductive Body : Type :=
| JsonError (fields : strdict)
| JsonResult (d : ResponseData).

(** What the handler did besides answering. *)
Inductive Event : Type :=
| ConfiguredLM (mode : string)
| BuiltState (initial_state : AgentState)
| InvokedGraph (initial_state : AgentState).

Record Served := mkServed {
  body : Body;
  status : nat;
  events : list Event;
  mode_after : option string
}.

Definition initial_state_of (image_bytes : bytes) (user_query mode : string)
  : AgentState :=
  mkState (Some image_bytes) (Some user_query) (Some []) (Some "")
          (Some (VStr "")) (Some "") (Some "") (Some []) (Some mode) None.

Definition analyze_outfit (env : Env) (_current_mode : option string)
    (req : Request) : Served :=
  match _validate_request env req with
  | inr (err, code) => mkServed (JsonError err) code [] _current_mode
  | inl (file, user_query) =>
      let image_bytes := payload file in
      if (MAX_FILE_SIZE <? N.of_nat (List.length image_bytes))%N
      then mkServed (JsonError [("error", "File size exceeds 10MB limit")])
                    400 [] _current_mode
      else
        let analysis_mode := lower (get (form_mode req) "deep") in
        let analysis_mode :=
          if String.eqb analysis_mode "quick" || String.eqb analysis_mode "deep"
          then analysis_mode else "deep" in
        match config.configure_lm env _current_mode analysis_mode with
        | Raise e =>
            mkServed (JsonError [("error", "Internal server error");
                                 ("details", exn_str e)])
                     500 [ConfiguredLM analysis_mode] _current_mode
        | Ok (_, mode') =>
            let initial_state :=
              initial_state_of image_bytes user_query analysis_mode in
            let result := supervisor.invoke env initial_state in
            mkServed
              (JsonResult
                 (mkResponseData
                    (visual_analysis result) (trend_summary result)
                    (final_report result) (generated_image_url result)
                    (get (agent_logs result) []) analysis_mode
                    (generation_prompt result)
                    (image_generation_error result)))
              200
              [ConfiguredLM analysis_mode; BuiltState initial_state;
               InvokedGraph initial_state]
              mode'
        end
  end.

End analyze.

(* ===================================================================== *)
(** ** Stub environments, after the mocks of [tests/test_agents.py]        *)
(* ===================================================================== *)

Module demo.

Import gemini.

(** A clock that advances by 0.4 s between readings. *)
Definition clock (k : nat) : Z := (1700000000000000 + 400000 * Z.of_nat k)%Z.

Definition fake_image_bytes : bytes :=
  [x66; x61; x6b; x65; x5f; x69; x6d; x61; x67; x65; x5f;
   x62; x79; x74; x65; x73].

Definition inline_part : Part :=
  mkPart (Some (mkBlob (Some (DataBytes fake_image_bytes)) (Some "image/png")))
         None.



Definition mock_response : Response :=
  mkResponse (Some [mkCandidate (Some [inline_part])]) (Ok None).

Definition features : OutfitFeatures :=
  mkFeatures "masculine" "casual fit" "blue and white" "cotton" "casual".

Definition unavailable : exn := mkExn "503 model unavailable".

(** Every external call answers. *)
Definition env_ok : Env :=
  mkEnv clock
        (fun _ => Ok tt)
        (fun b => Ok b)
        (fun _ => Ok tt)
        (fun _ _ _ => Ok "A person wearing casual clothes")
        (fun _ _ => Ok features)
        (fun _ _ _ => Ok "**Casual Style:** Popular trends include...")
        (fun _ _ _ _ _ _ _ =>
           Ok "This outfit works well for casual occasions...")
        (fun _ => Ok (Some mock_response))
        (fun _ => Raise (mkExn "Incorrect padding"))
        (fun _ => Ok None)
        (fun _ => Raise unavailable)
        (fun _ => Ok tt)
        (fun l => l).

(** Every call to a model raises. *)
Definition env_down : Env :=
  mkEnv clock
        (fun _ => Ok tt)
        (fun b => Ok b)
        (fun _ => Ok tt)
        (fun _ _ _ => Raise unavailable)
        (fun _ _ => Raise unavailable)
        (fun _ _ _ => Raise unavailable)
        (fun _ _ _ _ _ _ _ => Raise unavailable)
        (fun _ => Raise unavailable)
        (fun _ => Raise (mkExn "Incorrect padding"))
        (fun _ => Raise unavailable)
        (fun _ => Raise unavailable)
        (fun _ => Ok tt)
        (fun l => l).

(** The state of [test_generate_outfit_success]. *)
Definition outfit_state : AgentState :=
  mkState (Some [x66; x61; x6b; x65]) (Some "Casual look")
          (Some [("cut", "casual"); ("color", "blue")]) None
          (Some (VStr "Wear a blue shirt")) None None (Some [])
          (Some "quick") None.

(** A state with nothing but a query. *)
Definition bare_state : AgentState :=
  mkState None (Some "Casual outfit") None None None None None (Some [])
          None None.

(** A state whose advice is a list rather than a string. *)
Definition list_advice_state : AgentState :=
  mkState (Some [x66; x61; x6b; x65]) (Some "Casual look") (Some []) None
          (Some (VList [VStr "Wear a blue shirt"])) None None (Some [])
          (Some "quick") None.

Definition request_state : AgentState :=
  analyze.initial_state_of [x66; x61; x6b; x65]
    "What should I wear for a wedding?" "quick".

Definition long_text : string :=
  string_of_list_ascii (repeat "a"%char 801).



(** A form without the image field, and one whose image is a file of
    10 MB and one byte. *)
Definition no_image_request : analyze.Request :=
  analyze.mkRequest None (Some "Casual look") None.

Definition big_upload : analyze.FileStorage :=
  analyze.mkFile "big.jpg" (repeat x00 (N.to_nat 10485761)).

Definition oversize_request : analyze.Request :=
  analyze.mkRequest (Some big_upload) None (Some "quick").

End demo.

(* ===================================================================== *)
(** ** The extraction order, as the specification words it                 *)
(* ===================================================================== *)

Module extraction_spec.

Import gemini.

(** The first alternative that yields. *)
Fixpoint first_some {A} (l : list (option A)) : option A :=
  match l with
  | [] => None
  | Some x :: _ => Some x
  | None :: l' => first_some l'
  end.





(** All parts of a response: those of each candidate's content, in
    order, then the parts the response exposes itself. *)
Definition all_parts (resp : Response) (own : option (list Part))
  : list Part :=
  (flat_map (fun c => get (content_parts c) []) (get (candidates resp) [])
   ++ get own [])%list.



End extraction_spec.

(* ===================================================================== *)
(** ** Vocabulary for the log of a run                                     *)
(* ===================================================================== *)

Module run_log.

(** The agents of the four stages, in the order of the graph. *)
Definition STAGES : list string := ["vision"; "trends"; "advisor"; "generator"].

(** The messages with which a stage records how it ended. *)
Definition COMPLETION_MESSAGES : list (string * string) :=
  [("vision", "Completed image analysis");
   ("vision", "Failed to analyze image");
   ("trends", "Produced trend summary");
   ("trends", "Failed to fetch trends; using fallback");
   ("advisor", "Completed styling advice");
   ("advisor", "Failed to generate styling advice");
   ("generator", "Generated upgraded outfit image");
   ("generator", "Gemini image generation returned no content");
   ("generator", "Failed to generate outfit visualization")].

Definition is_completion (e : AgentLogEntry) : bool :=
  existsb (fun am => String.eqb (fst am) (agent e)
                     && String.eqb (snd am) (message e))
          COMPLETION_MESSAGES.

(** The number of completion entries of agent [a] in [l]. *)
Definition completions_of (a : string) (l : list AgentLogEntry) : nat :=
  List.length (filter (fun e => is_completion e && String.eqb (agent e) a) l).

(** The clock never steps back between two readings of a run. *)
Definition monotone_clock (env : Env) : Prop :=
  forall i j, i <= j -> (now_utc env i <= now_utc env j)%Z.

(** The first [n] readings of the clock never step back. *)
Definition steady_during (env : Env) (n : nat) : Prop :=
  forall i j, i <= j -> j < n -> (now_utc env i <= now_utc env j)%Z.

(** A stage of agent [a] took the run from [r] to [r']: it appended a
    start entry and one completion entry, stamped with two successive
    readings of the clock, and touched no earlier entry. *)
Definition stage_appends (env : Env) (a : string) (r r' : Run) : Prop :=
  exists started finished,
    logs_of r' = (logs_of r ++ [started; finished])%list
    /\ clock_reads r' = S (S (clock_reads r))
    /\ agent started = a /\ agent finished = a
    /\ is_completion started = false /\ is_completion finished = true
    /\ timestamp started = logs.utc_seconds (now_utc env (clock_reads r))
    /\ timestamp finished
       = logs.utc_seconds (now_utc env (S (clock_reads r))).

End run_log.

(* ===================================================================== *)
(** ** What each stage writes, as a function of what it reads              *)
(* ===================================================================== *)

Module dataflow.

(** The dictionary [analyze_image] assigns to [analysis]. *)
Definition vision_value (env : Env) (s : AgentState) : strdict :=
  match multi_model.vision_attempt env (multi_model.vision_model_of s) s with
  | Ok f => multi_model.analysis_of f
  | Raise e => multi_model.unknown_analysis e
  end.

(** The string [fetch_trends] assigns to [trends]. *)
Definition trend_value (env : Env) (visual : strdict) (query : string)
  : string :=
  let gender_style := dict_get visual "gender_style" "unisex" in
  let occasion := dict_get visual "occasion" "casual" in
  match FetchRelevantTrends env gender_style occasion query with
  | Ok trends => trends
  | Raise _ => trending.fallback_trends gender_style occasion
  end.

(** The string [synthesize_advice] assigns to [advice]. *)
Definition advice_value (env : Env) (visual : strdict) (trends query : string)
  : string :=
  match SynthesizeStylingAdvice env query
          (dict_get visual "gender_style" "unisex")
          (dict_get visual "cut" "unknown")
          (dict_get visual "color" "unknown")
          (dict_get visual "fabric" "unknown")
          (dict_get visual "occasion" "casual")
          trends with
  | Ok advice => advice
  | Raise _ => analysis.APOLOGY
  end.

(** [advice.split(".")[0] if advice else "Professional outfit"] for an
    advice that is a string. *)
Definition first_sentence (advice : string) : string :=
  if String.eqb advice "" then "Professional outfit"
  else split_first "." advice.

(** The prompt [generate_outfit] builds from a string advice. *)
Definition prompt_value (advice : string) (visual : strdict) (query : string)
  : string :=
  multi_model.build_prompt (first_sentence advice) visual query.

(** The URL and the error [generate_outfit] returns for a string advice. *)
Definition image_value (env : Env) (advice : string) (visual : strdict)
    (query : string) (image : option bytes) : option string * option string :=
  match fst (multi_model._generate_image_from_gemini env
               (prompt_value advice visual query) image (Some advice)) with
  | Some (String c u) => (Some (String c u), None)
  | _ => (None, Some multi_model.NO_CONTENT)
  end.

End dataflow.

(* ===================================================================== *)
(** ** Vocabulary for the route and for comparing runs                     *)
(* ===================================================================== *)

Module route_kinds.

(** The mode the handler settles on: the form field, lowercased, when it
    is [quick] or [deep], and [deep] otherwise. *)
Definition requested_mode (req : analyze.Request) : string :=
  let analysis_mode := lower (get (analyze.form_mode req) "deep") in
  if String.eqb analysis_mode "quick" || String.eqb analysis_mode "deep"
  then analysis_mode else "deep".

(** The upload passes the four checks of the handler. *)
Definition accepted (req : analyze.Request) : bool :=
  match analyze.files_image req with
  | None => false
  | Some file =>
      negb (String.eqb (analyze.filename file) "")
      && analyze._allowed_file (analyze.filename file)
      && (N.of_nat (List.length (analyze.payload file))
          <=? analyze.MAX_FILE_SIZE)%N
  end.

End route_kinds.

Module run_compare.

(** An entry without its timestamp. *)
Definition untimed (e : AgentLogEntry)
  : string * string * string * option string :=
  (agent e, message e, level e, details e).

(** The same environment read against another clock. *)
Definition with_clock (env : Env) (clock : nat -> Z) : Env :=
  mkEnv clock (GenerativeModel env) (Image_open env) (Image_load env)
        (generate_text env) (AnalyzeOutfitImage env)
        (FetchRelevantTrends env) (SynthesizeStylingAdvice env)
        (generate_image env) (b64decode env) (get_file env)
        (urlopen_read env) (dspy_configure env) (set_iteration env).

(** Two states that differ at most in the timestamps of their logs. *)
Definition same_but_time (s1 s2 : AgentState) : Prop :=
  original_image s1 = original_image s2
  /\ user_query s1 = user_query s2
  /\ visual_analysis s1 = visual_analysis s2
  /\ trend_summary s1 = trend_summary s2
  /\ final_report s1 = final_report s2
  /\ generated_image_url s1 = generated_image_url s2
  /\ generation_prompt s1 = generation_prompt s2
  /\ analysis_mode s1 = analysis_mode s2
  /\ image_generation_error s1 = image_generation_error s2
  /\ map untimed (get (agent_logs s1) []) = map untimed (get (agent_logs s2) []).

(** An entry of level [info] carries at most 800 characters of details. *)
Definition info_details_bounded (e : AgentLogEntry) : Prop :=
  level e = "info" ->
  forall d, details e = Some d -> String.length d <= 800.

(** Printable ASCII. *)
Definition printable (c : ascii) : bool :=
  let n := nat_of_ascii c in (32 <=? n)%nat && (n <=? 126)%nat.

Fixpoint all_printable (s : string) : bool :=
  match s with
  | EmptyString => true
  | String c s' => printable c && all_printable s'
  end.

End run_compare.

(* ===================================================================== *)
(** ** More stub environments                                              *)
(* ===================================================================== *)

Module stubs.

Import gemini.

(** The reference image cannot be opened; everything else answers. *)
Definition env_bad_image : Env :=
  mkEnv demo.clock
        (fun _ => Ok tt)
        (fun _ => Raise (mkExn "cannot identify image file"))
        (fun _ => Ok tt)
        (fun _ _ _ => Ok "A person wearing casual clothes")
        (fun _ _ => Ok demo.features)
        (fun _ _ _ => Ok "**Casual Style:** Popular trends include...")
        (fun _ _ _ _ _ _ _ =>
           Ok "This outfit works well for casual occasions...")
        (fun _ => Ok (Some demo.mock_response))
        (fun _ => Ok [])
        (fun _ => Ok None)
        (fun _ => Raise demo.unavailable)
        (fun _ => Raise (mkExn "invalid API key"))
        (fun l => l).

(** A part whose inline data is text. *)
Definition text_part : Part :=
  mkPart (Some (mkBlob (Some (DataStr "=")) (Some "image/png"))) None.

Definition text_response : Response :=
  mkResponse (Some [mkCandidate (Some [text_part; demo.inline_part])])
             (Ok None).

(** A well-formed upload with the mode in capitals. *)
Definition small_upload : analyze.FileStorage :=
  analyze.mkFile "look.JPG" [x66; x61; x6b; x65].

Definition good_request : analyze.Request :=
  analyze.mkRequest (Some small_upload) None (Some "QUICK").

(** A state without the image. *)
Definition imageless_state : AgentState :=
  mkState None (Some "Casual look") None None None None None None
          (Some "quick") None.

(** A clock that starts a day later and runs ten times slower. *)
Definition other_clock (k : nat) : Z :=
  (1700086400000000 + 4000000 * Z.of_nat k)%Z.

Definition long_advice : string :=
  string_of_list_ascii (repeat "b"%char 400).




(** A clock that is set back by two seconds between readings. *)
Definition stepped_clock (k : nat) : Z :=
  (1700000000000000 - 2000000 * Z.of_nat k)%Z.

Definition env_stepped : Env :=
  run_compare.with_clock demo.env_ok stepped_clock.

End stubs.

(* ===================================================================== *)
(** ** Facts about the built-ins                                           *)
(* ===================================================================== *)

Section PyFacts.

Lemma slice_to_length (n : nat) (s : string) :
  String.length (slice_to n s) <= n.
Proof.
  revert s; induction n as [|n IH]; intros [|c s]; simpl; try lia.
  specialize (IH s); lia.
Qed.

Lemma append_nil_r (s : string) : s ++ "" = s.
Proof. induction s as [|c s IH]; simpl; [reflexivity | now rewrite IH]. Qed.

Lemma append_assoc (a b c : string) : (a ++ b) ++ c = a ++ (b ++ c).
Proof. induction a as [|x a IH]; simpl; [reflexivity | now rewrite IH]. Qed.

Lemma Substring_middle (x pre post : string) : Substring x (pre ++ x ++ post).
Proof. now exists pre, post. Qed.

Lemma dict_get_absent (d : strdict) (k default : string) :
  dict_mem d k = false -> dict_get d k default = default.
Proof.
  induction d as [|[k' v] d IH]; simpl; [reflexivity|].
  destruct (String.eqb k' k); simpl; [discriminate | exact IH].
Qed.

(** [rsplit1] on a string without the separator. *)
Lemma rsplit1_no_sep (c : ascii) (s : string) :
  contains_char c s = false -> rsplit1 c s = [s].
Proof.
  induction s as [|x s IH]; simpl; [reflexivity|].
  destruct (Ascii.eqb x c) eqn:E; simpl; [discriminate|].
  intros H. rewrite (IH H). reflexivity.
Qed.

(** [rsplit1] cuts at the last separator. *)
Lemma rsplit1_at_last (c : ascii) (stem ext : string) :
  contains_char c ext = false ->
  rsplit1 c (stem ++ String c ext) = [stem; ext].
Proof.
  intros H. induction stem as [|x stem IH]; simpl.
  - rewrite (rsplit1_no_sep _ _ H), Ascii.eqb_refl. reflexivity.
  - rewrite IH. reflexivity.
Qed.

(** A string with the separator splits at its last occurrence. *)
Lemma last_sep_exists (c : ascii) (s : string) :
  contains_char c s = true ->
  exists stem ext, s = stem ++ String c ext /\ contains_char c ext = false.
Proof.
  induction s as [|x s IH]; simpl; [discriminate|].
  destruct (contains_char c s) eqn:Hs.
  - intros _. destruct (IH eq_refl) as (stem & ext & -> & Hext).
    now exists (String x stem), ext.
  - rewrite orb_false_r. intros E. apply Ascii.eqb_eq in E. subst x.
    now exists "", s.
Qed.

Lemma contains_char_app (c : ascii) (a b : string) :
  contains_char c (a ++ b) = contains_char c a || contains_char c b.
Proof.
  induction a as [|x a IH]; simpl; [reflexivity|].
  now rewrite IH, orb_assoc.
Qed.

Lemma append_inj_last_sep (c : ascii) (s1 e1 s2 e2 : string) :
  contains_char c e1 = false -> contains_char c e2 = false ->
  s1 ++ String c e1 = s2 ++ String c e2 -> s1 = s2 /\ e1 = e2.
Proof.
  intros H1 H2 E.
  assert (R1 := rsplit1_at_last c s1 e1 H1).
  assert (R2 := rsplit1_at_last c s2 e2 H2).
  rewrite E in R1. rewrite R1 in R2. now inversion R2.
Qed.

End PyFacts.

(* ===================================================================== *)
(** ** The log recorder                                                    *)
(* ===================================================================== *)

Section LogFacts.

Variable env : Env.

(** [append_agent_log] adds one entry at the end and takes one reading of
    the clock. *)
Lemma append_agent_log_spec (r : Run) (a m l : string) (d : pyval) :
  logs_of (logs.append_agent_log env r a m l d)
  = (logs_of r
     ++ [mkEntry a m l (logs.utc_seconds (now_utc env (clock_reads r)))
                 (logs.render_details d)])%list
  /\ clock_reads (logs.append_agent_log env r a m l d) = S (clock_reads r).
Proof. split; reflexivity. Qed.

(** The other keys of the state are left alone. *)
Lemma append_agent_log_frame (r : Run) (a m l : string) (d : pyval) :
  let s' := st (logs.append_agent_log env r a m l d) in
  original_image s' = original_image (st r)
  /\ user_query s' = user_query (st r)
  /\ visual_analysis s' = visual_analysis (st r)
  /\ trend_summary s' = trend_summary (st r)
  /\ final_report s' = final_report (st r)
  /\ analysis_mode s' = analysis_mode (st r)
  /\ image_generation_error s' = image_generation_error (st r).
Proof. simpl; repeat split. Qed.

End LogFacts.

(** C6, counterexample: a plain string of 801 characters passed as
    [details] is stored whole, so the stored field is longer than 800
    characters. *)
Lemma append_agent_log_stores_long_string :
  exists e s,
    logs_of (logs.append_agent_log demo.env_down (mkRun demo.bare_state 0)
               "vision" "Failed to analyze image" "error"
               (VStr demo.long_text)) = [e]
    /\ details e = Some s
    /\ String.length s = 801.
Proof.
  eexists; eexists; split; [reflexivity|]. split; [reflexivity|].
  vm_compute. reflexivity.
Qed.

(** C6, as amended: for a [details] argument other than [None] the stored
    field is a string; for a [dict] or a [list] it is the first 800
    characters of the JSON rendering, hence at most 800 characters long;
    a plain string is stored unchanged, whatever its length. *)
Theorem append_agent_log_details_bound
    (env : Env) (r : Run) (a m l : string) (d : pyval) (H : d <> VNone) :
  exists e s,
    logs_of (logs.append_agent_log env r a m l d) = (logs_of r ++ [e])%list
    /\ details e = Some s
    /\ (is_dict_or_list d = true ->
        s = slice_to 800 (json_dumps d) /\ String.length s <= 800)
    /\ (forall x, d = VStr x -> s = x).
Proof.
  destruct (append_agent_log_spec env r a m l d) as [Hl _].
  exists (mkEntry a m l (logs.utc_seconds (now_utc env (clock_reads r)))
                  (logs.render_details d)).
  destruct d as [|[|]|x|xs|kv]; try congruence;
    eexists; (split; [exact Hl|]); (split; [reflexivity|]); split;
    try (intros Hc; discriminate Hc);
    try (intros y Hy; discriminate Hy);
    try (intros _; split; [reflexivity | apply slice_to_length]).
  intros y Hy. now inversion Hy.
Qed.

(** C6, witness: the start entry of the vision stage, whose details are a
    dictionary. *)
Lemma append_agent_log_details_bound_witness :
  exists e s,
    logs_of (logs.append_agent_log demo.env_ok (mkRun demo.bare_state 0)
               "vision" "Starting image analysis" "info"
               (VDict [("mode", VStr "deep")])) = ([] ++ [e])%list
    /\ details e = Some s
    /\ (is_dict_or_list (VDict [("mode", VStr "deep")]) = true ->
        s = slice_to 800 (json_dumps (VDict [("mode", VStr "deep")]))
        /\ String.length s <= 800)
    /\ (forall x, VDict [("mode", VStr "deep")] = VStr x -> s = x).
Proof.
  apply (append_agent_log_details_bound demo.env_ok (mkRun demo.bare_state 0)
           "vision" "Starting image analysis" "info"
           (VDict [("mode", VStr "deep")])).
  discriminate.
Defined.

(* ===================================================================== *)
(** ** The upload's file name                                              *)
(* ===================================================================== *)

Lemma allowed_extension_In (ext : string) :
  existsb (String.eqb (lower ext)) analyze.ALLOWED_EXTENSIONS = true
  <-> In (lower ext) analyze.ALLOWED_EXTENSIONS.
Proof.
  rewrite existsb_exists. split.
  - intros (x & Hx & E). apply String.eqb_eq in E. now subst x.
  - intros H. exists (lower ext). split; [exact H | apply String.eqb_refl].
Qed.

(** The extension test reads the text after the last dot. *)
Lemma allowed_file_last_dot (filename : string) :
  analyze._allowed_file filename = true
  <-> exists stem ext,
        filename = stem ++ "." ++ ext
        /\ contains_char "." ext = false
        /\ In (lower ext) analyze.ALLOWED_EXTENSIONS.
Proof.
  unfold analyze._allowed_file. split.
  - intros H. apply andb_true_iff in H. destruct H as [Hdot Hext].
    destruct (last_sep_exists _ _ Hdot) as (stem & ext & -> & Hno).
    rewrite (rsplit1_at_last _ _ _ Hno) in Hext. simpl in Hext.
    exists stem, ext. repeat split; trivial.
    now apply allowed_extension_In.
  - intros (stem & ext & -> & Hno & Hin).
    change ("." ++ ext) with (String "." ext).
    rewrite contains_char_app, (rsplit1_at_last _ _ _ Hno). simpl.
    rewrite orb_true_r. simpl. now apply allowed_extension_In.
Qed.

Lemma allowed_file_needs_dot (filename : string) :
  contains_char "." filename = false ->
  analyze._allowed_file filename = false.
Proof. intros H. unfold analyze._allowed_file. now rewrite H. Qed.

(** C10: [_allowed_file] accepts a file name exactly when it has a dot and
    the text after its last dot, lowercased, is one of png, jpg, jpeg, gif,
    webp; so ["photo.PNG"] is accepted and a name without a dot never is. *)
Theorem allowed_file_iff_extension :
  (forall filename,
      analyze._allowed_file filename = true
      <-> exists stem ext,
            filename = stem ++ "." ++ ext
            /\ contains_char "." ext = false
            /\ In (lower ext) analyze.ALLOWED_EXTENSIONS)
  /\ analyze._allowed_file "photo.PNG" = true
  /\ (forall filename,
         contains_char "." filename = false ->
         analyze._allowed_file filename = false).
Proof.
  split; [exact allowed_file_last_dot|].
  split; [reflexivity | exact allowed_file_needs_dot].
Qed.

(** C10, witness: a mixed-case extension after two dots, and a name with
    no dot. *)
Lemma allowed_file_iff_extension_witness :
  analyze._allowed_file "Holiday.Photo.JpEg" = true
  /\ analyze._allowed_file "README" = false.
Proof.
  destruct allowed_file_iff_extension as (Hiff & _ & Hdotless). split.
  - apply Hiff. exists "Holiday.Photo", "JpEg". repeat split.
    simpl. tauto.
  - apply Hdotless. reflexivity.
Defined.

(* ===================================================================== *)
(** ** The trend stage                                                     *)
(* ===================================================================== *)

Lemma fallback_trends_nonempty (g o : string) :
  trending.fallback_trends g o <> "".
Proof. discriminate. Qed.

Lemma fallback_trends_mentions (g o : string) :
  Substring g (trending.fallback_trends g o)
  /\ Substring o (trending.fallback_trends g o).
Proof.
  split.
  - exists "Current fashion trends for ". eexists. reflexivity.
  - exists ("Current fashion trends for " ++ g ++ " "). eexists.
    unfold trending.fallback_trends.
    change ("Current fashion trends for " ++ g ++ " " ++ ?x)
      with ("Current fashion trends for " ++ (g ++ " " ++ x)).
    rewrite !append_assoc. reflexivity.
Qed.

(** C3: when the trend generator raises, [fetch_trends] returns the fixed
    template filled with [gender_style] and [occasion] as read from
    [visual_analysis] (["unisex"] and ["casual"] for absent keys); the
    summary is not empty, has both values as substrings, and the entry
    logged for the fallback has level [warning]. *)
Theorem fetch_trends_fallback (env : Env) (r : Run) (e : exn) :
  let visual := get (visual_analysis (st r)) [] in
  let gender_style := dict_get visual "gender_style" "unisex" in
  let occasion := dict_get visual "occasion" "casual" in
  forall
    (Hfail : FetchRelevantTrends env gender_style occasion
               (get (user_query (st r)) "") = Raise e),
  let res := fst (trending.fetch_trends env r) in
  trending.tr_trend_summary res = trending.fallback_trends gender_style occasion
  /\ trending.tr_trend_summary res <> ""
  /\ Substring gender_style (trending.tr_trend_summary res)
  /\ Substring occasion (trending.tr_trend_summary res)
  /\ (dict_mem visual "gender_style" = false ->
      Substring "unisex" (trending.tr_trend_summary res))
  /\ (dict_mem visual "occasion" = false ->
      Substring "casual" (trending.tr_trend_summary res))
  /\ exists started fallback,
       trending.tr_agent_logs res = (logs_of r ++ [started; fallback])%list
       /\ agent fallback = "trends"
       /\ message fallback = "Failed to fetch trends; using fallback"
       /\ level fallback = "warning".
Proof.
  intros visual gender_style occasion Hfail res.
  assert (Hsum : trending.tr_trend_summary res
                 = trending.fallback_trends gender_style occasion).
  { unfold res, trending.fetch_trends.
    fold visual. fold gender_style. fold occasion.
    rewrite Hfail. reflexivity. }
  destruct (fallback_trends_mentions gender_style occasion) as [Hg Ho].
  rewrite Hsum. repeat split; trivial.
  - apply fallback_trends_nonempty.
  - intros Habs. unfold gender_style in Hg at 1.
    now rewrite (dict_get_absent _ _ _ Habs) in Hg.
  - intros Habs. unfold occasion in Ho at 1.
    now rewrite (dict_get_absent _ _ _ Habs) in Ho.
  - unfold res, trending.fetch_trends.
    fold visual. fold gender_style. fold occasion.
    rewrite Hfail. do 2 eexists. split.
    + cbn [fst trending.tr_agent_logs].
      rewrite !(proj1 (append_agent_log_spec _ _ _ _ _ _)).
      rewrite <- app_assoc. reflexivity.
    + repeat split.
Qed.

(** C3, witness: every model call raises and the state has no visual
    analysis, so both defaults are used. *)
Lemma fetch_trends_fallback_witness :
  trending.tr_trend_summary
    (fst (trending.fetch_trends demo.env_down (mkRun demo.bare_state 0)))
  = trending.fallback_trends "unisex" "casual".
Proof.
  apply (fetch_trends_fallback demo.env_down (mkRun demo.bare_state 0)
           demo.unavailable).
  reflexivity.
Defined.

(* ===================================================================== *)
(** ** The advisory stage                                                  *)
(* ===================================================================== *)

(** C7: when the advice generator raises, [final_report] is the fixed
    apology, whatever the query, the visual analysis and the trend summary
    are, and the entry logged for the failure has level [error]. *)
Theorem synthesize_advice_failure (env : Env) (r : Run) (e : exn) :
  let visual := get (visual_analysis (st r)) [] in
  forall
    (Hfail : SynthesizeStylingAdvice env (get (user_query (st r)) "")
               (dict_get visual "gender_style" "unisex")
               (dict_get visual "cut" "unknown")
               (dict_get visual "color" "unknown")
               (dict_get visual "fabric" "unknown")
               (dict_get visual "occasion" "casual")
               (get (trend_summary (st r)) "") = Raise e),
  let res := fst (analysis.synthesize_advice env r) in
  analysis.adv_final_report res
  = "Unable to generate personalized advice at this time. Please try again later or consult with a fashion professional."
  /\ exists started failed,
       analysis.adv_agent_logs res = (logs_of r ++ [started; failed])%list
       /\ agent failed = "advisor"
       /\ message failed = "Failed to generate styling advice"
       /\ level failed = "error"
       /\ details failed = Some (exn_str e).
Proof.
  intros visual Hfail res.
  unfold res, analysis.synthesize_advice.
  set (r1 := logs.append_agent_log env r _ _ _ _).
  change (visual_analysis (st r1)) with (visual_analysis (st r)).
  change (trend_summary (st r1)) with (trend_summary (st r)).
  change (user_query (st r1)) with (user_query (st r)).
  fold visual. rewrite Hfail. split; [reflexivity|].
  do 2 eexists. split.
  - cbn [fst analysis.adv_agent_logs].
    rewrite (proj1 (append_agent_log_spec _ _ _ _ _ _)). unfold r1.
    rewrite (proj1 (append_agent_log_spec _ _ _ _ _ _)).
    rewrite <- app_assoc. reflexivity.
  - repeat split.
Qed.

(** C7, witness: every model call raises. *)
Lemma synthesize_advice_failure_witness :
  analysis.adv_final_report
    (fst (analysis.synthesize_advice demo.env_down
            (mkRun demo.outfit_state 0)))
  = analysis.APOLOGY.
Proof.
  apply (synthesize_advice_failure demo.env_down (mkRun demo.outfit_state 0)
           demo.unavailable).
  reflexivity.
Defined.

(* ===================================================================== *)
(** ** The vision stage                                                    *)
(* ===================================================================== *)

Lemma forall_feature_keys (P : string -> Prop) :
  P "gender_style" -> P "cut" -> P "color" -> P "fabric" -> P "occasion" ->
  forall k, In k multi_model.FEATURE_KEYS -> P k.
Proof.
  intros H1 H2 H3 H4 H5 k Hk. simpl in Hk.
  repeat (destruct Hk as [<- | Hk]; [assumption|]). contradiction.
Qed.

(** The first log entry leaves what the [try] block reads untouched. *)
Lemma vision_attempt_after_log (env : Env) (m : string) (r : Run)
    (a msg l : string) (d : pyval) :
  multi_model.vision_attempt env m (st (logs.append_agent_log env r a msg l d))
  = multi_model.vision_attempt env m (st r).
Proof. reflexivity. Qed.


(* ===================================================================== *)
(** ** The image regeneration stage                                        *)
(* ===================================================================== *)

Section Regeneration.

Variable env : Env.

(** What [_generate_image_from_gemini] can return: nothing at all, or a
    data URL together with the MIME type it is tagged with. *)
Lemma generate_image_shape (prompt : string) (base_image : option bytes)
    (stylist_advice : option string) :
  let g := multi_model._generate_image_from_gemini env prompt base_image
             stylist_advice in
  g = (None, None)
  \/ exists mime b,
       g = (Some (multi_model.data_url mime (b64encode b)), Some mime).
Proof.
  unfold multi_model._generate_image_from_gemini.
  destruct (GenerativeModel env multi_model.IMAGE_MODEL) as [[]|]; simpl;
    [|now left].
  destruct (generate_image env _) as [response|]; simpl; [|now left].
  destruct (multi_model._extract_image_bytes env response) as [[[b|] m]|];
    cbn [bind]; try (now left).
  destruct (multi_model.nonempty_bytes b); [|now left].
  right. now exists (multi_model.or_else m "image/png"), b.
Qed.

Lemma data_url_nonempty (mime encoded : string) :
  String.eqb (multi_model.data_url mime encoded) "" = false.
Proof. reflexivity. Qed.

Lemma attribute_error_nonempty (v : pyval) (attr : string) :
  exn_str (multi_model.attribute_error v attr) <> "".
Proof. discriminate. Qed.

Lemma outfit_line_raises (advice : pyval) (e : exn) :
  multi_model.outfit_line advice = Raise e -> exn_str e <> "".
Proof.
  unfold multi_model.outfit_line.
  destruct (truthy advice); [|discriminate].
  destruct advice; try discriminate;
    intros H; inversion H; apply attribute_error_nonempty.
Qed.

(** The three ways out of [generate_outfit]. *)
Lemma generate_outfit_outcome (r : Run) :
  let res := fst (multi_model.generate_outfit env r) in
  let advice := get (final_report (st r)) (VStr "") in
  match multi_model.outfit_line advice with
  | Raise e =>
      multi_model.out_generated_image_url res = None
      /\ multi_model.out_image_generation_error res = Some (exn_str e)
      /\ multi_model.out_generation_prompt res = ""
  | Ok outfit =>
      let prompt :=
        multi_model.build_prompt outfit (get (visual_analysis (st r)) [])
          (get (user_query (st r)) "") in
      multi_model.out_generation_prompt res = prompt
      /\ match fst (multi_model._generate_image_from_gemini env prompt
                      (original_image (st r))
                      (multi_model.optional_str advice)) with
         | Some (String c u) =>
             multi_model.out_generated_image_url res = Some (String c u)
             /\ multi_model.out_image_generation_error res = None
         | _ =>
             multi_model.out_generated_image_url res = None
             /\ multi_model.out_image_generation_error res
                = Some multi_model.NO_CONTENT
         end
  end.
Proof.
  intros res advice. unfold res, multi_model.generate_outfit.
  set (r1 := logs.append_agent_log env (multi_model.with_error r None) _ _ _ _).
  change (final_report (st r1)) with (final_report (st r)).
  change (visual_analysis (st r1)) with (visual_analysis (st r)).
  change (user_query (st r1)) with (user_query (st r)).
  change (original_image (st r1)) with (original_image (st r)).
  fold advice.
  destruct (multi_model.outfit_line advice) as [outfit|e].
  - destruct (multi_model._generate_image_from_gemini env _ _ _)
      as [[[|c u]|] m]; repeat split.
  - repeat split.
Qed.

(** Extraction that brings back no byte, or raises, leaves the caller
    without a URL. *)
Lemma generate_image_no_bytes (prompt : string) (base_image : option bytes)
    (stylist_advice : option string) (response : option gemini.Response) :
  generate_image env
    (multi_model.text_messages prompt stylist_advice
     ++ multi_model.reference_messages env base_image)%list = Ok response ->
  (exists m, multi_model._extract_image_bytes env response = Ok (None, m))
  \/ (exists m, multi_model._extract_image_bytes env response
                = Ok (Some [], m))
  \/ (exists e, multi_model._extract_image_bytes env response = Raise e) ->
  multi_model._generate_image_from_gemini env prompt base_image stylist_advice
  = (None, None).
Proof.
  intros Hgen Hnone. unfold multi_model._generate_image_from_gemini.
  destruct (GenerativeModel env multi_model.IMAGE_MODEL) as [[]|];
    [|reflexivity].
  cbn [bind]. rewrite Hgen. cbn [bind].
  destruct Hnone as [(m & ->) | [(m & ->) | (e & ->)]]; reflexivity.
Qed.

(** Extraction that brings back bytes gives the data URL. *)
Lemma generate_image_with_bytes (prompt : string) (base_image : option bytes)
    (stylist_advice : option string) (response : option gemini.Response)
    (image_bytes : bytes) (reported : option string) :
  GenerativeModel env multi_model.IMAGE_MODEL = Ok tt ->
  generate_image env
    (multi_model.text_messages prompt stylist_advice
     ++ multi_model.reference_messages env base_image)%list = Ok response ->
  multi_model._extract_image_bytes env response
  = Ok (Some image_bytes, reported) ->
  image_bytes <> [] ->
  multi_model._generate_image_from_gemini env prompt base_image stylist_advice
  = (Some ("data:" ++ multi_model.or_else reported "image/png" ++ ";base64,"
             ++ b64encode image_bytes),
     Some (multi_model.or_else reported "image/png")).
Proof.
  intros Hm Hgen Hex Hne. unfold multi_model._generate_image_from_gemini.
  rewrite Hm. cbn [bind]. rewrite Hgen. cbn [bind]. rewrite Hex.
  cbn [bind]. destruct image_bytes as [|x b]; [contradiction|]. reflexivity.
Qed.

End Regeneration.

(** C1: in what [generate_outfit] returns, [generated_image_url] and
    [image_generation_error] are never both set.  When the [try] block
    raises, or the generation call hands back no URL, the URL is [None]
    and the error is a non-empty string; when a data URL comes back, the
    error is [None]. *)
Theorem generate_outfit_url_xor_error (env : Env) (r : Run) :
  let res := fst (multi_model.generate_outfit env r) in
  let advice := get (final_report (st r)) (VStr "") in
  let url := multi_model.out_generated_image_url res in
  let err := multi_model.out_image_generation_error res in
  ((url = None /\ exists msg, err = Some msg /\ msg <> "")
   \/ (exists u, url = Some u /\ u <> "" /\ err = None))
  /\ (forall e,
         multi_model.outfit_line advice = Raise e ->
         url = None /\ err = Some (exn_str e) /\ exn_str e <> "")
  /\ (forall outfit,
         multi_model.outfit_line advice = Ok outfit ->
         let g :=
           multi_model._generate_image_from_gemini env
             (multi_model.build_prompt outfit
                (get (visual_analysis (st r)) [])
                (get (user_query (st r)) ""))
             (original_image (st r)) (multi_model.optional_str advice) in
         (fst g = None ->
          url = None
          /\ err = Some "Gemini image generation returned no content")
         /\ (forall u, fst g = Some u -> url = Some u /\ u <> "" /\ err = None)).
Proof.
  intros res advice url err.
  pose proof (generate_outfit_outcome env r) as H.
  cbv zeta in H. fold res advice url err in H.
  destruct (multi_model.outfit_line advice) as [outfit|e] eqn:Hline.
  - destruct H as [_ H].
    pose proof (generate_image_shape env
                  (multi_model.build_prompt outfit
                     (get (visual_analysis (st r)) [])
                     (get (user_query (st r)) ""))
                  (original_image (st r))
                  (multi_model.optional_str advice)) as Hs.
    cbv zeta in Hs.
    destruct Hs as [Hs | (mime & b & Hs)]; rewrite Hs in H; simpl in H;
      destruct H as [Hu He].
    + split; [|split].
      * left. split; [exact Hu|]. exists multi_model.NO_CONTENT.
        split; [exact He | discriminate].
      * intros e Hr. discriminate Hr.
      * intros o Ho. inversion Ho; subst o. rewrite Hs. simpl. split.
        -- intros _. now split.
        -- intros u Hsome. discriminate Hsome.
    + split; [|split].
      * right. eexists. split; [exact Hu|]. split; [discriminate | exact He].
      * intros e Hr. discriminate Hr.
      * intros o Ho. inversion Ho; subst o. rewrite Hs. simpl. split.
        -- intros Hnone. discriminate Hnone.
        -- intros u Hsome. inversion Hsome. repeat split; trivial.
           discriminate.
  - destruct H as (Hu & He & _).
    pose proof (outfit_line_raises _ _ Hline) as Hne.
    split; [|split].
    + left. split; [exact Hu|]. now exists (exn_str e).
    + intros e' Hr. inversion Hr; subst e'. now repeat split.
    + intros o Ho. discriminate Ho.
Qed.

(** C9: when extraction brings back bytes, [_generate_image_from_gemini]
    returns ["data:" + mime + ";base64," + b64encode(bytes)], where [mime]
    is the MIME type the part reported, or ["image/png"] when it reported
    none. *)
Theorem generate_image_data_url
    (env : Env) (prompt : string) (base_image : option bytes)
    (stylist_advice : option string) (response : option gemini.Response)
    (image_bytes : bytes) (reported : option string)
    (Hmodel : GenerativeModel env multi_model.IMAGE_MODEL = Ok tt)
    (Hcall : generate_image env
               (multi_model.text_messages prompt stylist_advice
                ++ multi_model.reference_messages env base_image)%list
             = Ok response)
    (Hbytes : multi_model._extract_image_bytes env response
              = Ok (Some image_bytes, reported))
    (Hsome : image_bytes <> []) :
  exists mime,
    multi_model._generate_image_from_gemini env prompt base_image stylist_advice
    = (Some ("data:" ++ mime ++ ";base64," ++ b64encode image_bytes), Some mime)
    /\ (forall m, reported = Some m -> m <> "" -> mime = m)
    /\ (reported = None \/ reported = Some "" -> mime = "image/png").
Proof.
  exists (multi_model.or_else reported "image/png"). split; [|split].
  - now apply (generate_image_with_bytes env prompt base_image
                 stylist_advice response).
  - intros m -> Hm. simpl. destruct (String.eqb m "") eqn:E; [|reflexivity].
    apply String.eqb_eq in E. contradiction.
  - intros [-> | ->]; reflexivity.
Qed.

(** C9, witness: the mocked response of [test_generate_outfit_success]. *)
Lemma generate_image_data_url_witness :
  exists mime,
    multi_model._generate_image_from_gemini demo.env_ok "prompt"
      (Some [x66; x61; x6b; x65]) (Some "Wear a blue shirt")
    = (Some ("data:" ++ mime ++ ";base64," ++ b64encode demo.fake_image_bytes),
       Some mime)
    /\ (forall m, Some "image/png" = Some m -> m <> "" -> mime = m)
    /\ (Some "image/png" = None \/ Some "image/png" = Some "" ->
        mime = "image/png").
Proof.
  apply (generate_image_data_url demo.env_ok "prompt"
           (Some [x66; x61; x6b; x65]) (Some "Wear a blue shirt")
           (Some demo.mock_response) demo.fake_image_bytes
           (Some "image/png")).
  - reflexivity.
  - reflexivity.
  - reflexivity.
  - discriminate.
Defined.

(* ===================================================================== *)
(** ** Extraction of the image bytes                                       *)
(* ===================================================================== *)

Section Extraction.

Import extraction_spec.

Variable env : Env.

Ltac split_cases :=
  repeat match goal with
         | |- context [match ?x with _ => _ end] =>
             lazymatch x with
             | context [match _ with _ => _ end] => fail
             | _ => destruct x eqn:?
             end
         end.



Lemma scan_parts_first_some (ps : list gemini.Part) :
  multi_model.scan_parts env ps
  = first_some (map (multi_model.extract_part env) ps).
Proof.
  induction ps as [|p ps IH]; simpl; [reflexivity|].
  destruct (multi_model.extract_part env p); [reflexivity | exact IH].
Qed.

Lemma first_some_app {A} (l1 l2 : list (option A)) :
  first_some (l1 ++ l2)%list
  = match first_some l1 with
    | Some x => Some x
    | None => first_some l2
    end.
Proof.
  induction l1 as [|[x|] l1 IH]; simpl; [reflexivity | reflexivity | exact IH].
Qed.

Lemma scan_iterables_concat (pss : list (list gemini.Part)) :
  multi_model.scan_iterables env pss
  = first_some (map (multi_model.extract_part env) (List.concat pss)).
Proof.
  induction pss as [|ps pss IH]; simpl; [reflexivity|].
  rewrite map_app, first_some_app, <- scan_parts_first_some.
  destruct (multi_model.scan_parts env ps); [reflexivity | exact IH].
Qed.

(** The lists the function collects, laid end to end, are all the parts. *)
Lemma parts_iterables_concat (resp : gemini.Response)
    (own : option (list gemini.Part)) :
  List.concat (multi_model.candidate_parts resp ++ multi_model.own_parts own)
  = all_parts resp own.
Proof.
  unfold multi_model.candidate_parts, multi_model.own_parts, all_parts.
  rewrite concat_app. f_equal.
  - destruct (gemini.candidates resp) as [cs|]; simpl; [|reflexivity].
    induction cs as [|c cs IH]; simpl; [reflexivity|].
    rewrite concat_app, IH. f_equal.
    destruct (gemini.content_parts c); simpl;
      [apply app_nil_r | reflexivity].
  - destruct own as [[|p ps]|]; simpl; try reflexivity. now rewrite app_nil_r.
Qed.

Lemma first_some_found {A B} (f : A -> option B) (l : list A) (y : B) :
  first_some (map f l) = Some y
  <-> exists before x after,
        l = (before ++ x :: after)%list
        /\ Forall (fun q => f q = None) before
        /\ f x = Some y.
Proof.
  induction l as [|a l IH]; simpl.
  - split; [discriminate|]. intros (b & x & t & H & _).
    destruct b; discriminate H.
  - destruct (f a) as [z|] eqn:E.
    + split.
      * intros H. inversion H; subst z. exists [], a, l. now repeat split.
      * intros ([|b0 b] & x & t & H & Hb & Hx); simpl in H; inversion H;
          subst.
        -- congruence.
        -- inversion Hb; congruence.
    + rewrite IH. split.
      * intros (b & x & t & -> & Hb & Hx). exists (a :: b), x, t.
        repeat split; [now constructor | exact Hx].
      * intros ([|b0 b] & x & t & H & Hb & Hx); simpl in H; inversion H;
          subst.
        -- congruence.
        -- exists b, x, t. inversion Hb. now repeat split.
Qed.


(** What the two loops return once [response.parts] has been read. *)
Lemma extract_image_bytes_scan (resp : gemini.Response)
    (own : option (list gemini.Part)) :
  gemini.parts resp = Ok own ->
  multi_model._extract_image_bytes env (Some resp)
  = Ok match first_some (map (multi_model.extract_part env)
                             (all_parts resp own)) with
       | Some (b, m) => (Some b, m)
       | None => (None, None)
       end.
Proof.
  intros Hown.
  unfold multi_model._extract_image_bytes, multi_model.parts_iterables.
  rewrite Hown. cbn [bind].
  now rewrite scan_iterables_concat, parts_iterables_concat.
Qed.



End Extraction.



(* ===================================================================== *)
(** ** The log across a run of the graph                                   *)
(* ===================================================================== *)

Section RunLog.

Import run_log.

Variable env : Env.

Lemma logs_of_with_error (r : Run) (e : option string) :
  logs_of (multi_model.with_error r e) = logs_of r.
Proof. reflexivity. Qed.

Ltac two_entries :=
  do 2 eexists; split;
  [ cbn [logs_of st agent_logs get supervisor.merge_vision
         supervisor.merge_trends supervisor.merge_advice
         supervisor.merge_outfit fst snd
         multi_model.vis_agent_logs trending.tr_agent_logs
         analysis.adv_agent_logs multi_model.out_agent_logs];
    repeat (rewrite (proj1 (append_agent_log_spec _ _ _ _ _ _))
            || rewrite logs_of_with_error);
    rewrite <- app_assoc; reflexivity
  | repeat split ].

Lemma analyze_image_appends (r : Run) :
  stage_appends env "vision" r (supervisor.analyze_image_node env r).
Proof.
  unfold supervisor.analyze_image_node, supervisor.node,
    multi_model.analyze_image.
  destruct (multi_model.vision_attempt env _ _); two_entries.
Qed.

Lemma fetch_trends_appends (r : Run) :
  stage_appends env "trends" r (supervisor.fetch_trends_node env r).
Proof.
  unfold supervisor.fetch_trends_node, supervisor.node,
    trending.fetch_trends.
  destruct (FetchRelevantTrends env _ _ _); two_entries.
Qed.

Lemma synthesize_advice_appends (r : Run) :
  stage_appends env "advisor" r (supervisor.synthesize_advice_node env r).
Proof.
  unfold supervisor.synthesize_advice_node, supervisor.node,
    analysis.synthesize_advice.
  destruct (SynthesizeStylingAdvice env _ _ _ _ _ _ _); two_entries.
Qed.

Lemma generate_outfit_appends (r : Run) :
  stage_appends env "generator" r (supervisor.generate_outfit_node env r).
Proof.
  unfold supervisor.generate_outfit_node, supervisor.node,
    multi_model.generate_outfit.
  destruct (multi_model.outfit_line _); [|two_entries].
  destruct (multi_model._generate_image_from_gemini env _ _ _) as [u m].
  destruct (truthy _); two_entries.
Qed.

Lemma utc_seconds_mono (a b : Z) :
  (a <= b)%Z -> (logs.utc_seconds a <= logs.utc_seconds b)%Z.
Proof. intros H. unfold logs.utc_seconds. apply Z.div_le_mono; lia. Qed.

End RunLog.

(** The stub clock never steps back. *)
Lemma demo_clock_monotone : run_log.monotone_clock demo.env_ok.
Proof.
  intros i j Hij. cbn [now_utc demo.env_ok]. unfold demo.clock. lia.
Qed.

(** C5, counterexample: against a wall clock that is set back by two
    seconds between any two readings, the second entry of the log of a
    run is stamped earlier than the first. *)
Lemma pipeline_log_timestamps_step_back :
  map timestamp
    (get (agent_logs (supervisor.invoke stubs.env_stepped demo.request_state))
         [])
  = [1700000000; 1699999998; 1699999996; 1699999994;
     1699999992; 1699999990; 1699999988; 1699999986]%Z
  /\ exists first second rest,
       get (agent_logs (supervisor.invoke stubs.env_stepped
                          demo.request_state)) []
       = first :: second :: rest
       /\ (timestamp second < timestamp first)%Z.
Proof.
  split; [vm_compute; reflexivity|].
  eexists _, _, _. split; [vm_compute; reflexivity | reflexivity].
Qed.

(** C5, as amended: across a run of the graph every stage leaves the log
    it found in place and appends two entries to it, a start entry and
    exactly one completion entry, so the length never decreases, a run
    appends eight entries and a completed run holds at least four. The
    timestamps of the appended entries are the eight successive readings
    of the wall clock, truncated to seconds; they are non-decreasing in
    the order of the entries whenever those readings do not step back,
    which nothing in the code ensures. *)
Theorem pipeline_log_append_only (env : Env) (initial : AgentState) :
  let logs_at k := logs_of (supervisor.after env k initial) in
  let final := get (agent_logs (supervisor.invoke env initial)) [] in
  (forall k a,
      nth_error run_log.STAGES k = Some a ->
      exists started finished,
        logs_at (S k) = (logs_at k ++ [started; finished])%list
        /\ agent started = a /\ agent finished = a
        /\ run_log.is_completion started = false
        /\ run_log.is_completion finished = true)
  /\ (forall j k,
         j <= k -> k <= 4 ->
         List.length (logs_at j) <= List.length (logs_at k))
  /\ (exists appended,
         final = (get (agent_logs initial) [] ++ appended)%list
         /\ List.length appended = 8
         /\ map timestamp appended
            = map (fun k => logs.utc_seconds (now_utc env k)) (seq 0 8)
         /\ (run_log.steady_during env 8 ->
             StronglySorted Z.le (map timestamp appended))
         /\ forall a, In a run_log.STAGES ->
                      run_log.completions_of a appended = 1)
  /\ (run_log.steady_during env 8 ->
      get (agent_logs initial) [] = [] ->
      StronglySorted Z.le (map timestamp final))
  /\ 4 <= List.length final.
Proof.
  intros logs_at final.
  pose proof (analyze_image_appends env (supervisor.after env 0 initial))
    as (s1 & f1 & L1 & C1 & As1 & Af1 & Ns1 & Nf1 & Ts1 & Tf1).
  change (supervisor.analyze_image_node env (supervisor.after env 0 initial))
    with (supervisor.after env 1 initial) in L1, C1.
  pose proof (fetch_trends_appends env (supervisor.after env 1 initial))
    as (s2 & f2 & L2 & C2 & As2 & Af2 & Ns2 & Nf2 & Ts2 & Tf2).
  change (supervisor.fetch_trends_node env (supervisor.after env 1 initial))
    with (supervisor.after env 2 initial) in L2, C2.
  pose proof (synthesize_advice_appends env (supervisor.after env 2 initial))
    as (s3 & f3 & L3 & C3 & As3 & Af3 & Ns3 & Nf3 & Ts3 & Tf3).
  change (supervisor.synthesize_advice_node env
            (supervisor.after env 2 initial))
    with (supervisor.after env 3 initial) in L3, C3.
  pose proof (generate_outfit_appends env (supervisor.after env 3 initial))
    as (s4 & f4 & L4 & C4 & As4 & Af4 & Ns4 & Nf4 & Ts4 & Tf4).
  change (supervisor.generate_outfit_node env
            (supervisor.after env 3 initial))
    with (supervisor.after env 4 initial) in L4, C4.
  change (clock_reads (supervisor.after env 0 initial)) with 0 in *.
  rewrite C1 in *. rewrite C2 in *. rewrite C3 in *.
  fold (logs_at 0) (logs_at 1) (logs_at 2) (logs_at 3) (logs_at 4)
    in L1, L2, L3, L4.
  assert (Hfinal : final = logs_at 4) by reflexivity.
  assert (Hlen : forall i, i <= 4 ->
                   List.length (logs_at i) = List.length (logs_at 0) + 2 * i).
  { intros i Hi.
    assert (E1 := f_equal (@List.length _) L1).
    assert (E2 := f_equal (@List.length _) L2).
    assert (E3 := f_equal (@List.length _) L3).
    assert (E4 := f_equal (@List.length _) L4).
    rewrite length_app in E1, E2, E3, E4. simpl in E1, E2, E3, E4.
    destruct i as [|[|[|[|[|i]]]]]; lia. }
  assert (Hstamps : map timestamp [s1; f1; s2; f2; s3; f3; s4; f4]
                    = map (fun k => logs.utc_seconds (now_utc env k))
                          (seq 0 8)).
  { cbn [map seq]. now rewrite Ts1, Tf1, Ts2, Tf2, Ts3, Tf3, Ts4, Tf4. }
  assert (Hsorted : run_log.steady_during env 8 ->
                    StronglySorted Z.le
                      (map timestamp [s1; f1; s2; f2; s3; f3; s4; f4])).
  { intros Hclock. rewrite Hstamps. cbn [map seq].
    repeat (constructor;
            [| repeat (constructor;
                       [apply utc_seconds_mono, Hclock; lia|]);
               constructor ]).
    constructor. }
  assert (Hall : final
                 = (logs_at 0 ++ [s1; f1; s2; f2; s3; f3; s4; f4])%list).
  { rewrite Hfinal, L4, L3, L2, L1. rewrite <- !app_assoc. reflexivity. }
  split; [|split; [|split; [|split]]].
  - intros k a Hk.
    destruct k as [|[|[|[|k]]]]; simpl in Hk;
      [injection Hk as <- | injection Hk as <- | injection Hk as <-
       | injection Hk as <- | destruct k; discriminate Hk].
    + exists s1, f1. now repeat split.
    + exists s2, f2. now repeat split.
    + exists s3, f3. now repeat split.
    + exists s4, f4. now repeat split.
  - intros j k Hjk Hk. rewrite (Hlen j), (Hlen k); lia.
  - exists [s1; f1; s2; f2; s3; f3; s4; f4].
    split; [|split; [|split; [|split]]].
    + exact Hall.
    + reflexivity.
    + exact Hstamps.
    + exact Hsorted.
    + intros a Ha. unfold run_log.completions_of. cbn [filter].
      rewrite Ns1, Nf1, Ns2, Nf2, Ns3, Nf3, Ns4, Nf4.
      rewrite As1, Af1, As2, Af2, As3, Af3, As4, Af4.
      simpl in Ha.
      repeat (destruct Ha as [<- | Ha]; [reflexivity|]). contradiction.
  - intros Hclock Hempty. rewrite Hall.
    change (logs_at 0) with (get (agent_logs initial) []).
    rewrite Hempty. exact (Hsorted Hclock).
  - rewrite Hfinal, (Hlen 4); lia.
Qed.

(** C5, witness: a run against the stub whose clock advances by 0.4 s
    per reading. *)
Lemma pipeline_log_append_only_witness :
  StronglySorted Z.le
    (map timestamp
       (get (agent_logs (supervisor.invoke demo.env_ok demo.request_state))
            [])).
Proof.
  destruct (pipeline_log_append_only demo.env_ok demo.request_state)
    as (_ & _ & _ & H & _).
  apply H; [|reflexivity].
  intros i j Hij _. now apply demo_clock_monotone.
Defined.

(* ===================================================================== *)
(** ** The [/analyze] route                                                *)
(* ===================================================================== *)

Section Route.

Variable env : Env.
Variable current_mode : option string.

Lemma rejected_by_validation (req : analyze.Request) (err : strdict) (code : nat) :
  analyze._validate_request env req = inr (err, code) ->
  analyze.analyze_outfit env current_mode req
  = analyze.mkServed (analyze.JsonError err) code [] current_mode.
Proof. intros H. unfold analyze.analyze_outfit. now rewrite H. Qed.

Lemma validation_errors_are_400 (req : analyze.Request) (err : strdict)
    (code : nat) :
  analyze._validate_request env req = inr (err, code) -> code = 400.
Proof.
  unfold analyze._validate_request.
  destruct (analyze.files_image req) as [file|]; [|now inversion 1].
  destruct (String.eqb _ ""); [now inversion 1|].
  destruct (analyze._allowed_file _); simpl; [discriminate | now inversion 1].
Qed.

Lemma oversize_rejected (req : analyze.Request) (file : analyze.FileStorage) :
  analyze.files_image req = Some file ->
  (analyze.MAX_FILE_SIZE
   < N.of_nat (List.length (analyze.payload file)))%N ->
  let served := analyze.analyze_outfit env current_mode req in
  analyze.status served = 400
  /\ analyze.events served = []
  /\ (analyze.filename file <> "" ->
      analyze._allowed_file (analyze.filename file) = true ->
      analyze.body served
      = analyze.JsonError [("error", "File size exceeds 10MB limit")]).
Proof.
  intros Hfile Hsize served. unfold served.
  destruct (analyze._validate_request env req) as [[f q]|[err code]] eqn:V.
  - assert (f = file) as ->.
    { unfold analyze._validate_request in V. rewrite Hfile in V.
      destruct (String.eqb _ ""); [discriminate|].
      destruct (analyze._allowed_file _); simpl in V; [|discriminate].
      now inversion V. }
    unfold analyze.analyze_outfit. rewrite V.
    apply N.ltb_lt in Hsize. rewrite Hsize. now repeat split.
  - rewrite (rejected_by_validation _ _ _ V).
    rewrite (validation_errors_are_400 _ _ _ V) in *.
    split; [reflexivity|]. split; [reflexivity|].
    intros Hname Hext. exfalso.
    unfold analyze._validate_request in V. rewrite Hfile, Hext in V.
    apply String.eqb_neq in Hname. rewrite Hname in V. discriminate V.
Qed.

End Route.

(** C8: the [/analyze] route answers 400, without configuring a model,
    building a state or invoking the graph, when the form has no image
    field (body [{"error": "No image file provided"}]), when the file name
    is empty, when its extension is not one of png, jpg, jpeg, gif, webp,
    and when the payload is larger than 10 MB (body with the text
    [exceeds 10MB limit] once the name has passed). *)
Theorem analyze_rejects_before_pipeline
    (env : Env) (current_mode : option string) (req : analyze.Request) :
  let served := analyze.analyze_outfit env current_mode req in
  (analyze.files_image req = None ->
   analyze.body served = analyze.JsonError [("error", "No image file provided")]
   /\ analyze.status served = 400
   /\ analyze.events served = [])
  /\ (forall file,
         analyze.files_image req = Some file ->
         analyze.filename file = "" ->
         analyze.body served = analyze.JsonError [("error", "No file selected")]
         /\ analyze.status served = 400
         /\ analyze.events served = [])
  /\ (forall file stem ext,
         analyze.files_image req = Some file ->
         analyze.filename file = stem ++ "." ++ ext ->
         contains_char "." ext = false ->
         ~ In (lower ext) ["png"; "jpg"; "jpeg"; "gif"; "webp"] ->
         analyze.status served = 400
         /\ analyze.events served = []
         /\ exists err, analyze.body served = analyze.JsonError err)
  /\ (forall file,
         analyze.files_image req = Some file ->
         (10 * 1024 * 1024 < N.of_nat (List.length (analyze.payload file)))%N ->
         analyze.status served = 400
         /\ analyze.events served = []
         /\ (analyze.filename file <> "" ->
             analyze._allowed_file (analyze.filename file) = true ->
             exists msg,
               analyze.body served = analyze.JsonError [("error", msg)]
               /\ Substring "exceeds 10MB limit" msg)).
Proof.
  intros served. split; [|split; [|split]].
  - intros Hnone. unfold served.
    rewrite (rejected_by_validation env current_mode req
               [("error", "No image file provided")] 400).
    + now repeat split.
    + unfold analyze._validate_request. now rewrite Hnone.
  - intros file Hfile Hname. unfold served.
    rewrite (rejected_by_validation env current_mode req
               [("error", "No file selected")] 400).
    + now repeat split.
    + unfold analyze._validate_request. now rewrite Hfile, Hname.
  - intros file stem ext Hfile Hname Hno Hout. unfold served.
    assert (Hrej : analyze._allowed_file (analyze.filename file) = false).
    { destruct (analyze._allowed_file (analyze.filename file)) eqn:E;
        [|reflexivity].
      apply allowed_file_last_dot in E.
      destruct E as (stem' & ext' & E & Hno' & Hin).
      rewrite Hname in E.
      change ("." ++ ext) with (String "." ext) in E.
      change ("." ++ ext') with (String "." ext') in E.
      destruct (append_inj_last_sep _ _ _ _ _ Hno Hno' E) as [_ <-].
      contradiction. }
    destruct (analyze._validate_request env req) as [[f q]|[err code]] eqn:V.
    + exfalso. unfold analyze._validate_request in V.
      rewrite Hfile, Hrej in V.
      destruct (String.eqb _ ""); discriminate V.
    + rewrite (rejected_by_validation _ _ _ _ _ V).
      rewrite (validation_errors_are_400 _ _ _ _ V).
      repeat split. now exists err.
  - intros file Hfile Hsize.
    destruct (oversize_rejected env current_mode req file Hfile Hsize)
      as (Hs & He & Hb).
    fold served in Hs, He, Hb. repeat split; trivial.
    intros Hname Hext. exists "File size exceeds 10MB limit".
    split; [now apply Hb|]. now exists "File size ", "".
Qed.

(** C8, witness: a form without the image field, and an upload of 10 MB
    and one byte. *)
Lemma analyze_rejects_before_pipeline_witness :
  (analyze.status (analyze.analyze_outfit demo.env_ok None demo.no_image_request)
   = 400
   /\ analyze.events
        (analyze.analyze_outfit demo.env_ok None demo.no_image_request) = [])
  /\ (analyze.status
        (analyze.analyze_outfit demo.env_ok None demo.oversize_request) = 400
      /\ analyze.events
           (analyze.analyze_outfit demo.env_ok None demo.oversize_request) = []).
Proof.
  split.
  - destruct (analyze_rejects_before_pipeline demo.env_ok None
                demo.no_image_request) as (H & _).
    destruct (H eq_refl) as (_ & Hs & He). now split.
  - destruct (analyze_rejects_before_pipeline demo.env_ok None
                demo.oversize_request) as (_ & _ & _ & H).
    destruct (H demo.big_upload eq_refl) as (Hs & He & _).
    + unfold demo.big_upload. cbn [analyze.payload].
      rewrite repeat_length, Nnat.N2Nat.id. reflexivity.
    + now split.
Defined.

(** C1, witness: the advice is a list, so [advice.split] raises. *)
Lemma generate_outfit_url_xor_error_witness :
  multi_model.out_generated_image_url
    (fst (multi_model.generate_outfit demo.env_ok
            (mkRun demo.list_advice_state 0))) = None
  /\ multi_model.out_image_generation_error
       (fst (multi_model.generate_outfit demo.env_ok
               (mkRun demo.list_advice_state 0)))
     = Some "'list' object has no attribute 'split'".
Proof.
  destruct (generate_outfit_url_xor_error demo.env_ok
              (mkRun demo.list_advice_state 0)) as (_ & H & _).
  destruct (H (multi_model.attribute_error
                 (VList [VStr "Wear a blue shirt"]) "split") eq_refl)
    as (Hu & He & _).
  split; [exact Hu | exact He].
Defined.



(* ===================================================================== *)
(** ** The scenarios of [tests/test_agents.py], run on the model           *)
(* ===================================================================== *)

Example test_analyze_image_success :
  dict_get
    (multi_model.vis_visual_analysis
       (fst (multi_model.analyze_image demo.env_ok
               (mkRun demo.outfit_state 0))))
    "gender_style" "" = "masculine".
Proof. reflexivity. Qed.

Example test_generate_outfit_success :
  exists rest,
    multi_model.out_generated_image_url
      (fst (multi_model.generate_outfit demo.env_ok
              (mkRun demo.outfit_state 0)))
    = Some ("data:image/png;base64," ++ rest).
Proof. eexists. vm_compute. reflexivity. Qed.

Example test_trending_agent :
  Substring "Casual Style"
    (trending.tr_trend_summary
       (fst (trending.fetch_trends demo.env_ok (mkRun demo.bare_state 0)))).
Proof. exists "**", ":** Popular trends include...". reflexivity. Qed.

Example test_analysis_agent :
  analysis.adv_final_report
    (fst (analysis.synthesize_advice demo.env_ok
            (mkRun demo.outfit_state 0)))
  = "This outfit works well for casual occasions...".
Proof. reflexivity. Qed.

Example test_pipeline_against_failing_models :
  let final := supervisor.invoke demo.env_down demo.request_state in
  dict_get (get (visual_analysis final) []) "occasion" "" = "unknown"
  /\ final_report final = Some (VStr analysis.APOLOGY)
  /\ generated_image_url final = None
  /\ image_generation_error final = Some multi_model.NO_CONTENT
  /\ List.length (get (agent_logs final) []) = 8.
Proof. vm_compute. repeat split. Qed.

(* ===================================================================== *)
(** ** What a run of the graph leaves in the state                         *)
(* ===================================================================== *)

Section Dataflow.

Variable env : Env.

Lemma analyze_image_node_state (r : Run) :
  let s := st r in
  let s' := st (supervisor.analyze_image_node env r) in
  original_image s' = original_image s
  /\ user_query s' = user_query s
  /\ analysis_mode s' = analysis_mode s
  /\ visual_analysis s' = Some (dataflow.vision_value env s)
  /\ trend_summary s' = trend_summary s
  /\ final_report s' = final_report s
  /\ generated_image_url s' = generated_image_url s
  /\ generation_prompt s' = generation_prompt s
  /\ image_generation_error s' = image_generation_error s.
Proof.
  unfold supervisor.analyze_image_node, supervisor.node,
    multi_model.analyze_image, dataflow.vision_value.
  rewrite vision_attempt_after_log.
  destruct (multi_model.vision_attempt env _ _); repeat split.
Qed.

Lemma fetch_trends_node_state (r : Run) :
  let s := st r in
  let s' := st (supervisor.fetch_trends_node env r) in
  original_image s' = original_image s
  /\ user_query s' = user_query s
  /\ analysis_mode s' = analysis_mode s
  /\ visual_analysis s' = visual_analysis s
  /\ trend_summary s'
     = Some (dataflow.trend_value env (get (visual_analysis s) [])
               (get (user_query s) ""))
  /\ final_report s' = final_report s
  /\ generated_image_url s' = generated_image_url s
  /\ generation_prompt s' = generation_prompt s
  /\ image_generation_error s' = image_generation_error s.
Proof.
  unfold supervisor.fetch_trends_node, supervisor.node,
    trending.fetch_trends, dataflow.trend_value.
  destruct (FetchRelevantTrends env _ _ _); repeat split.
Qed.

Lemma synthesize_advice_node_state (r : Run) :
  let s := st r in
  let s' := st (supervisor.synthesize_advice_node env r) in
  original_image s' = original_image s
  /\ user_query s' = user_query s
  /\ analysis_mode s' = analysis_mode s
  /\ visual_analysis s' = visual_analysis s
  /\ trend_summary s' = trend_summary s
  /\ final_report s'
     = Some (VStr (dataflow.advice_value env (get (visual_analysis s) [])
                     (get (trend_summary s) "") (get (user_query s) "")))
  /\ generated_image_url s' = generated_image_url s
  /\ generation_prompt s' = generation_prompt s
  /\ image_generation_error s' = image_generation_error s.
Proof.
  unfold supervisor.synthesize_advice_node, supervisor.node,
    analysis.synthesize_advice, dataflow.advice_value.
  set (r1 := logs.append_agent_log env r _ _ _ _).
  change (visual_analysis (st r1)) with (visual_analysis (st r)).
  change (trend_summary (st r1)) with (trend_summary (st r)).
  change (user_query (st r1)) with (user_query (st r)).
  destruct (SynthesizeStylingAdvice env _ _ _ _ _ _ _); repeat split.
Qed.

(** On a string the first line of the prompt never raises. *)
Lemma outfit_line_of_string (advice : string) :
  multi_model.outfit_line (VStr advice)
  = Ok (dataflow.first_sentence advice).
Proof.
  unfold multi_model.outfit_line, dataflow.first_sentence. simpl.
  destruct (String.eqb advice ""); reflexivity.
Qed.

Lemma generate_outfit_node_state (r : Run) (advice : string) :
  final_report (st r) = Some (VStr advice) ->
  let s := st r in
  let s' := st (supervisor.generate_outfit_node env r) in
  let visual := get (visual_analysis s) [] in
  let query := get (user_query s) "" in
  original_image s' = original_image s
  /\ user_query s' = user_query s
  /\ analysis_mode s' = analysis_mode s
  /\ visual_analysis s' = visual_analysis s
  /\ trend_summary s' = trend_summary s
  /\ final_report s' = final_report s
  /\ generation_prompt s'
     = Some (dataflow.prompt_value advice visual query)
  /\ (generated_image_url s', image_generation_error s')
     = dataflow.image_value env advice visual query (original_image s).
Proof.
  intros Hfr s s' visual query.
  pose proof (generate_outfit_outcome env r) as H. cbv zeta in H.
  rewrite Hfr in H. cbn [get] in H. rewrite outfit_line_of_string in H.
  destruct H as [Hp H].
  unfold s', supervisor.generate_outfit_node, supervisor.node.
  destruct (multi_model.generate_outfit env r) as [res r'] eqn:E.
  cbn [fst] in Hp, H. cbn [st supervisor.merge_outfit original_image
    user_query analysis_mode visual_analysis trend_summary final_report
    generation_prompt generated_image_url image_generation_error].
  repeat (split; [reflexivity|]). split.
  - now rewrite Hp.
  - unfold dataflow.image_value, dataflow.prompt_value. fold s visual query.
    cbn [multi_model.optional_str] in H.
    destruct (fst (multi_model._generate_image_from_gemini env _ _ _))
      as [[|c u]|]; destruct H as [-> ->]; reflexivity.
Qed.

(** The fields of the final state, stage by stage. *)
Lemma invoke_fields (initial : AgentState) :
  let query := get (user_query initial) "" in
  let visual := dataflow.vision_value env initial in
  let trends := dataflow.trend_value env visual query in
  let advice := dataflow.advice_value env visual trends query in
  let final := supervisor.invoke env initial in
  original_image final = original_image initial
  /\ user_query final = user_query initial
  /\ analysis_mode final = analysis_mode initial
  /\ visual_analysis final = Some visual
  /\ trend_summary final = Some trends
  /\ final_report final = Some (VStr advice)
  /\ generation_prompt final
     = Some (dataflow.prompt_value advice visual query)
  /\ (generated_image_url final, image_generation_error final)
     = dataflow.image_value env advice visual query (original_image initial).
Proof.
  intros query visual trends advice final.
  set (r0 := mkRun initial 0).
  set (r1 := supervisor.analyze_image_node env r0).
  set (r2 := supervisor.fetch_trends_node env r1).
  set (r3 := supervisor.synthesize_advice_node env r2).
  change final with (st (supervisor.generate_outfit_node env r3)).
  destruct (analyze_image_node_state r0)
    as (I1 & Q1 & M1 & V1 & T1 & F1 & _).
  destruct (fetch_trends_node_state r1)
    as (I2 & Q2 & M2 & V2 & T2 & F2 & _).
  destruct (synthesize_advice_node_state r2)
    as (I3 & Q3 & M3 & V3 & T3 & F3 & _).
  fold r1 in I1, Q1, M1, V1, T1, F1.
  fold r2 in I2, Q2, M2, V2, T2, F2.
  fold r3 in I3, Q3, M3, V3, T3, F3.
  cbv zeta in *. change (st r0) with initial in *.
  assert (I3' : original_image (st r3) = original_image initial)
    by now rewrite I3, I2, I1.
  assert (Q3' : user_query (st r3) = user_query initial)
    by now rewrite Q3, Q2, Q1.
  assert (M3' : analysis_mode (st r3) = analysis_mode initial)
    by now rewrite M3, M2, M1.
  assert (V3' : visual_analysis (st r3) = Some visual)
    by now rewrite V3, V2, V1.
  assert (T3' : trend_summary (st r3) = Some trends).
  { rewrite T3, T2, V1, Q1. reflexivity. }
  assert (F3' : final_report (st r3) = Some (VStr advice)).
  { rewrite F3, V2, V1, T2, V1, Q2, Q1. reflexivity. }
  destruct (generate_outfit_node_state r3 advice F3')
    as (I4 & Q4 & M4 & V4 & T4 & F4 & P4 & U4).
  cbv zeta in P4, U4.
  rewrite V3', Q3' in P4, U4. cbn [get] in P4, U4. fold query in P4, U4.
  rewrite I3' in U4.
  rewrite I4, Q4, M4, V4, T4, F4, P4, U4.
  now repeat split.
Qed.

End Dataflow.

(* ===================================================================== *)
(** ** The generation prompt                                               *)
(* ===================================================================== *)

Section Prompt.

Lemma rstrip_app_keeps (a b b' : string) :
  rstrip b = b' /\ b' <> "" ->
  rstrip (a ++ b) = a ++ b' /\ a ++ b' <> "".
Proof.
  intros [Hb Hne]. induction a as [|x a [IH IHne]]; simpl.
  - now split.
  - rewrite IH. split; [|discriminate].
    destruct (a ++ b') eqn:E; [contradiction | reflexivity].
Qed.

Lemma rstrip_prompt_tail :
  rstrip ("- Reference: Use the provided outfit photo as base - preserve the person's identity, face, hair, body type, pose, and background completely unchanged. Only modify the wardrobe items."
            ++ multi_model.nl ++ "        ")
  = "- Reference: Use the provided outfit photo as base - preserve the person's identity, face, hair, body type, pose, and background completely unchanged. Only modify the wardrobe items."
  /\ "- Reference: Use the provided outfit photo as base - preserve the person's identity, face, hair, body type, pose, and background completely unchanged. Only modify the wardrobe items."
     <> "".
Proof. split; [vm_compute; reflexivity | discriminate]. Qed.

(** [strip()] takes away the newline that opens the template and the
    indentation that closes it, and nothing of what was filled in. *)
Lemma build_prompt_unfolded (outfit : string) (visual : strdict)
    (query : string) :
  multi_model.build_prompt outfit visual query
  = "Professional fashion editorial photography:" ++ multi_model.nl ++
    "- Outfit: " ++ outfit ++ multi_model.nl ++
    "- Style: " ++ dict_get visual "cut" "modern tailored fit"
      ++ multi_model.nl ++
    "- Colors: " ++ dict_get visual "color" "neutral professional tones"
      ++ multi_model.nl ++
    "- Fabric: " ++ dict_get visual "fabric" "high-quality materials"
      ++ multi_model.nl ++
    "- Occasion: " ++ dict_get visual "occasion" "professional setting"
      ++ multi_model.nl ++
    "- Personal request: "
      ++ multi_model.or_else (Some query)
           "Tailor to the user's stated preference" ++ multi_model.nl ++
    "- IMPORTANT: Keep the exact same person, face, facial expression, pose, and background from the reference image. Only change the clothing/outfit to match the new style guidance." ++ multi_model.nl ++
    "- Setting: Same background as reference image, professional lighting" ++ multi_model.nl ++
    "- Shot: Full body, same pose and composition as reference image, high detail, 8K quality" ++ multi_model.nl ++
    "- Mood: Sophisticated, professional, current trends" ++ multi_model.nl ++
    "- Reference: Use the provided outfit photo as base - preserve the person's identity, face, hair, body type, pose, and background completely unchanged. Only modify the wardrobe items.".
Proof.
  unfold multi_model.build_prompt, strip.
  match goal with
  | |- rstrip (lstrip (multi_model.nl ++ ?body)) = _ =>
      change (lstrip (multi_model.nl ++ body)) with body
  end.
  match goal with
  | |- rstrip ?x = ?y => enough (H : rstrip x = y /\ y <> "") by apply H
  end.
  repeat first [ exact rstrip_prompt_tail | apply rstrip_app_keeps ].
Qed.

End Prompt.

(** X1: a run of the graph leaves [original_image], [user_query] and
    [analysis_mode] as they were, and every stage works on what the stage
    before it wrote: the trend stage on the visual analysis of the vision
    stage, the advisory stage on both, the image stage on the advice, the
    visual analysis, the query and the original image. *)
Theorem graph_run_dataflow (env : Env) (initial : AgentState) :
  let query := get (user_query initial) "" in
  let visual := dataflow.vision_value env initial in
  let trends := dataflow.trend_value env visual query in
  let advice := dataflow.advice_value env visual trends query in
  let final := supervisor.invoke env initial in
  original_image final = original_image initial
  /\ user_query final = user_query initial
  /\ analysis_mode final = analysis_mode initial
  /\ visual_analysis final = Some visual
  /\ trend_summary final = Some trends
  /\ final_report final = Some (VStr advice)
  /\ generation_prompt final
     = Some (multi_model.build_prompt (dataflow.first_sentence advice)
               visual query)
  /\ (generated_image_url final, image_generation_error final)
     = dataflow.image_value env advice visual query (original_image initial).
Proof. exact (invoke_fields env initial). Qed.

(** X2: in a run of the graph the image stage never takes its [except]
    branch, whatever the initial state holds: the advice it reads is the
    string the advisory stage wrote, the prompt is not empty, and the
    outcome is either a data URL with no error, or no URL with the
    no-content message. *)
Theorem graph_run_image_outcome (env : Env) (initial : AgentState) :
  let final := supervisor.invoke env initial in
  (exists advice, final_report final = Some (VStr advice))
  /\ (exists prompt, generation_prompt final = Some prompt /\ prompt <> "")
  /\ ((exists rest,
          generated_image_url final = Some ("data:" ++ rest)
          /\ image_generation_error final = None)
      \/ (generated_image_url final = None
          /\ image_generation_error final
             = Some "Gemini image generation returned no content")).
Proof.
  intros final.
  destruct (invoke_fields env initial)
    as (_ & _ & _ & _ & _ & F & P & U).
  cbv zeta in F, P, U. fold final in F, P, U.
  split; [eexists; exact F|]. split.
  - eexists. split; [exact P|]. unfold dataflow.prompt_value.
    rewrite build_prompt_unfolded. discriminate.
  - unfold dataflow.image_value in U.
    match type of U with
    | context [multi_model._generate_image_from_gemini env ?p ?b ?a] =>
        pose proof (generate_image_shape env p b a) as Hs
    end.
    cbv zeta in Hs. destruct Hs as [Hs | (mime & b & Hs)]; rewrite Hs in U;
      cbn [fst] in U.
    + injection U as Hu He. right. now split.
    + change (multi_model.data_url mime (b64encode b))
        with (String "d" ("ata:" ++ mime ++ ";base64," ++ b64encode b)) in U.
      cbv beta iota in U. injection U as Hu He. left.
      exists (mime ++ ";base64," ++ b64encode b). split; [exact Hu | exact He].
Qed.

(** X3: when the vision stage fails, the stages after it are asked with
    the value ["unknown"]: the trend generator gets ["unknown"] for the
    gender style and the occasion, so the defaults ["unisex"] and
    ["casual"] are not used, and the advisor gets ["unknown"] for all five
    features. *)
Theorem degraded_vision_reaches_later_stages
    (env : Env) (initial : AgentState) (e : exn)
    (Hfail : multi_model.vision_attempt env
               (multi_model.vision_model_of initial) initial = Raise e) :
  let query := get (user_query initial) "" in
  let final := supervisor.invoke env initial in
  let trends :=
    match FetchRelevantTrends env "unknown" "unknown" query with
    | Ok t => t
    | Raise _ => trending.fallback_trends "unknown" "unknown"
    end in
  visual_analysis final = Some (multi_model.unknown_analysis e)
  /\ trend_summary final = Some trends
  /\ final_report final
     = Some (VStr match SynthesizeStylingAdvice env query "unknown" "unknown"
                          "unknown" "unknown" "unknown" trends with
                  | Ok a => a
                  | Raise _ => analysis.APOLOGY
                  end).
Proof.
  intros query final trends.
  destruct (invoke_fields env initial) as (_ & _ & _ & V & T & F & _).
  cbv zeta in V, T, F. fold final query in V, T, F.
  unfold dataflow.vision_value in V, T, F. rewrite Hfail in V, T, F.
  split; [exact V|]. split; [exact T | exact F].
Qed.

(** X3, witness: every model call raises. *)
Lemma degraded_vision_reaches_later_stages_witness :
  trend_summary (supervisor.invoke demo.env_down demo.request_state)
  = Some (trending.fallback_trends "unknown" "unknown").
Proof.
  destruct (degraded_vision_reaches_later_stages demo.env_down
              demo.request_state demo.unavailable eq_refl) as (_ & T & _).
  exact T.
Defined.

Ltac inside_prompt pre :=
  exists pre; eexists; rewrite build_prompt_unfolded;
  rewrite ?append_assoc; reflexivity.

(** X4: the generation prompt opens with the editorial header and the
    outfit line, carries the cut, the colours, the fabric, the occasion
    and the request (or the stock request when the query is empty) on
    lines of their own, and closes with the reference line; [strip()]
    removes nothing of the values filled in. *)
Theorem build_prompt_embeds_inputs
    (outfit : string) (visual : strdict) (query : string) :
  let prompt := multi_model.build_prompt outfit visual query in
  let nl := multi_model.nl in
  (exists rest,
      prompt = "Professional fashion editorial photography:" ++ nl
               ++ "- Outfit: " ++ outfit ++ nl ++ rest)
  /\ Substring (nl ++ "- Style: "
                ++ dict_get visual "cut" "modern tailored fit" ++ nl) prompt
  /\ Substring (nl ++ "- Colors: "
                ++ dict_get visual "color" "neutral professional tones" ++ nl)
               prompt
  /\ Substring (nl ++ "- Fabric: "
                ++ dict_get visual "fabric" "high-quality materials" ++ nl)
               prompt
  /\ Substring (nl ++ "- Occasion: "
                ++ dict_get visual "occasion" "professional setting" ++ nl)
               prompt
  /\ Substring (nl ++ "- Personal request: "
                ++ (if String.eqb query ""
                    then "Tailor to the user's stated preference"
                    else query) ++ nl) prompt
  /\ (exists before,
         prompt = before ++ "Only modify the wardrobe items.").
Proof.
  intros prompt nl. unfold prompt, nl.
  split; [eexists; rewrite build_prompt_unfolded; reflexivity|].
  split; [inside_prompt ("Professional fashion editorial photography:"
                           ++ multi_model.nl ++ "- Outfit: " ++ outfit)|].
  split; [inside_prompt ("Professional fashion editorial photography:"
                           ++ multi_model.nl ++ "- Outfit: " ++ outfit
                           ++ multi_model.nl ++ "- Style: "
                           ++ dict_get visual "cut" "modern tailored fit")|].
  split; [inside_prompt ("Professional fashion editorial photography:"
                           ++ multi_model.nl ++ "- Outfit: " ++ outfit
                           ++ multi_model.nl ++ "- Style: "
                           ++ dict_get visual "cut" "modern tailored fit"
                           ++ multi_model.nl ++ "- Colors: "
                           ++ dict_get visual "color"
                                "neutral professional tones")|].
  split; [inside_prompt ("Professional fashion editorial photography:"
                           ++ multi_model.nl ++ "- Outfit: " ++ outfit
                           ++ multi_model.nl ++ "- Style: "
                           ++ dict_get visual "cut" "modern tailored fit"
                           ++ multi_model.nl ++ "- Colors: "
                           ++ dict_get visual "color"
                                "neutral professional tones"
                           ++ multi_model.nl ++ "- Fabric: "
                           ++ dict_get visual "fabric"
                                "high-quality materials")|].
  split.
  - exists ("Professional fashion editorial photography:"
              ++ multi_model.nl ++ "- Outfit: " ++ outfit
              ++ multi_model.nl ++ "- Style: "
              ++ dict_get visual "cut" "modern tailored fit"
              ++ multi_model.nl ++ "- Colors: "
              ++ dict_get visual "color" "neutral professional tones"
              ++ multi_model.nl ++ "- Fabric: "
              ++ dict_get visual "fabric" "high-quality materials"
              ++ multi_model.nl ++ "- Occasion: "
              ++ dict_get visual "occasion" "professional setting").
    eexists. rewrite build_prompt_unfolded. unfold multi_model.or_else.
    rewrite ?append_assoc. reflexivity.
  - eexists. rewrite build_prompt_unfolded.
    change "- Reference: Use the provided outfit photo as base - preserve the person's identity, face, hair, body type, pose, and background completely unchanged. Only modify the wardrobe items."
      with ("- Reference: Use the provided outfit photo as base - preserve the person's identity, face, hair, body type, pose, and background completely unchanged. "
              ++ "Only modify the wardrobe items.").
    rewrite <- ?append_assoc. reflexivity.
Qed.

(* ===================================================================== *)
(** ** More on the image regeneration stage                                *)
(* ===================================================================== *)

Lemma split_first_cut (c : ascii) (s : string) :
  contains_char c (split_first c s) = false
  /\ (split_first c s = s
      \/ exists rest, s = split_first c s ++ String c rest).
Proof.
  induction s as [|x s [IHn IHc]]; simpl.
  - split; [reflexivity | now left].
  - destruct (Ascii.eqb x c) eqn:E; simpl.
    + split; [reflexivity|]. right. exists s.
      apply Ascii.eqb_eq in E. now subst x.
    + rewrite E, IHn. split; [reflexivity|].
      destruct IHc as [-> | (rest & Hr)]; [now left|].
      right. exists rest. now rewrite Hr at 1.
Qed.

(** X5: the outfit line of the prompt is the advice up to its first full
    stop: it holds no full stop and is the whole advice or the part before
    a full stop. A falsy advice gives the stock line, and the line raises
    exactly for an advice that is truthy and not a string. *)
Theorem outfit_line_first_sentence :
  (forall advice,
      advice <> "" ->
      exists outfit,
        multi_model.outfit_line (VStr advice) = Ok outfit
        /\ contains_char "." outfit = false
        /\ (outfit = advice \/ exists rest, advice = outfit ++ "." ++ rest))
  /\ (forall v,
         truthy v = false ->
         multi_model.outfit_line v = Ok "Professional outfit")
  /\ (forall v e,
         multi_model.outfit_line v = Raise e
         <-> truthy v = true
             /\ multi_model.optional_str v = None
             /\ e = multi_model.attribute_error v "split").
Proof.
  split; [|split].
  - intros advice Hne. exists (split_first "." advice).
    destruct (split_first_cut "." advice) as [Hn Hc].
    split; [|split; [exact Hn | exact Hc]].
    unfold multi_model.outfit_line. simpl.
    apply String.eqb_neq in Hne. now rewrite Hne.
  - intros v Hv. unfold multi_model.outfit_line. now rewrite Hv.
  - intros v e. unfold multi_model.outfit_line. split.
    + destruct (truthy v) eqn:T; [|discriminate].
      destruct v; simpl; try discriminate; intros H; inversion H;
        now repeat split.
    + intros (T & O & ->). rewrite T.
      destruct v; simpl in O; try discriminate; reflexivity.
Qed.

(** X5, witness: only the first sentence of a two-sentence advice is
    used. *)
Lemma outfit_line_first_sentence_witness :
  exists outfit,
    multi_model.outfit_line (VStr "Wear a blue shirt. Add a blazer.")
    = Ok outfit
    /\ contains_char "." outfit = false
    /\ (outfit = "Wear a blue shirt. Add a blazer."
        \/ exists rest,
             "Wear a blue shirt. Add a blazer." = outfit ++ "." ++ rest).
Proof.
  destruct outfit_line_first_sentence as (H & _).
  apply H. discriminate.
Defined.

(** X6: a reference image that is empty, cannot be opened or cannot be
    loaded is left out, and generation goes on as if no image had been
    given. *)
Theorem generate_image_ignores_unloadable_reference
    (env : Env) (prompt : string) (image : bytes)
    (stylist_advice : option string)
    (Hbad : image = []
            \/ (exists e, Image_open env image = Raise e)
            \/ (exists img e, Image_open env image = Ok img
                              /\ Image_load env img = Raise e)) :
  multi_model.reference_messages env (Some image) = []
  /\ multi_model._generate_image_from_gemini env prompt (Some image)
       stylist_advice
     = multi_model._generate_image_from_gemini env prompt None stylist_advice.
Proof.
  assert (Hnone : multi_model.reference_messages env (Some image) = []).
  { unfold multi_model.reference_messages.
    destruct Hbad as [-> | [(e & He) | (img & e & Ho & Hl)]].
    - reflexivity.
    - rewrite He. now destruct (multi_model.nonempty_bytes image).
    - rewrite Ho. cbn [bind]. rewrite Hl.
      now destruct (multi_model.nonempty_bytes image). }
  split; [exact Hnone|].
  unfold multi_model._generate_image_from_gemini. now rewrite Hnone.
Qed.

(** X6, witness: [Image.open] raises on every input. *)
Lemma generate_image_ignores_unloadable_reference_witness :
  multi_model._generate_image_from_gemini stubs.env_bad_image "prompt"
    (Some [x66; x61; x6b; x65]) None
  = multi_model._generate_image_from_gemini stubs.env_bad_image "prompt"
      None None.
Proof.
  apply (generate_image_ignores_unloadable_reference stubs.env_bad_image
           "prompt" [x66; x61; x6b; x65] None).
  right. left. eexists. reflexivity.
Defined.

(** X7: [_generate_image_from_gemini] returns a URL and a MIME type
    together or neither, the type is never empty, and a URL comes back
    exactly when the model can be built, the generation call answers and
    extraction brings back at least one byte; every failure on the way
    gives [(None, None)]. *)
Theorem generate_image_url_needs_bytes
    (env : Env) (prompt : string) (base_image : option bytes)
    (stylist_advice : option string) :
  let g := multi_model._generate_image_from_gemini env prompt base_image
             stylist_advice in
  let messages :=
    (multi_model.text_messages prompt stylist_advice
     ++ multi_model.reference_messages env base_image)%list in
  (g = (None, None)
   \/ exists mime encoded,
        g = (Some ("data:" ++ mime ++ ";base64," ++ encoded), Some mime)
        /\ mime <> "")
  /\ (fst g <> None
      <-> exists response image_bytes reported,
            GenerativeModel env multi_model.IMAGE_MODEL = Ok tt
            /\ generate_image env messages = Ok response
            /\ multi_model._extract_image_bytes env response
               = Ok (Some image_bytes, reported)
            /\ image_bytes <> []).
Proof.
  intros g messages.
  assert (Hor : forall r, multi_model.or_else r "image/png" <> "").
  { intros [m|]; simpl; [|discriminate].
    destruct (String.eqb m "") eqn:E; [discriminate|].
    now apply String.eqb_neq. }
  unfold g, multi_model._generate_image_from_gemini. fold messages.
  destruct (GenerativeModel env multi_model.IMAGE_MODEL) as [[]|e1];
    cbn [bind].
  2:{ split; [now left|]. split; [intros H; now elim H|].
      intros (r & b & m & H & _). discriminate H. }
  destruct (generate_image env messages) as [response|e2]; cbn [bind].
  2:{ split; [now left|]. split; [intros H; now elim H|].
      intros (r & b & m & _ & H & _). discriminate H. }
  destruct (multi_model._extract_image_bytes env response)
    as [[[b|] m]|e3] eqn:E; cbn [bind].
  2,3: split; [now left|]; (split; [intros H; now elim H|]);
       intros (r & b & m' & _ & H & H' & _); inversion H; subst r;
       rewrite E in H'; discriminate H'.
  destruct b as [|x b]; cbn [multi_model.nonempty_bytes].
  - split; [now left|]. split; [intros H; now elim H|].
    intros (r & b & m' & _ & H & H' & Hne). inversion H; subst r.
    rewrite E in H'. inversion H'; subst b. now elim Hne.
  - split.
    + right. exists (multi_model.or_else m "image/png"),
        (b64encode (x :: b)). split; [reflexivity | apply Hor].
    + split; [|intros _; discriminate].
      intros _. exists response, (x :: b), m.
      repeat split; trivial. discriminate.
Qed.

(** X8: an extraction without a single byte can only come from inline
    text that [b64decode] turns into nothing; inline bytes and fetched
    files are only returned when they are not empty. The caller then
    reports no image, even when a later part carries one. *)
Theorem extraction_empty_only_from_text
    (env : Env) (resp : gemini.Response) (reported : option string)
    (Hempty : multi_model._extract_image_bytes env (Some resp)
              = Ok (Some [], reported)) :
  (exists own p text,
      gemini.parts resp = Ok own
      /\ In p (extraction_spec.all_parts resp own)
      /\ gemini.inline_data p
         = Some (gemini.mkBlob (Some (gemini.DataStr text)) reported)
      /\ text <> ""
      /\ b64decode env text = Ok [])
  /\ (forall prompt base_image stylist_advice,
         generate_image env
           (multi_model.text_messages prompt stylist_advice
            ++ multi_model.reference_messages env base_image)%list
         = Ok (Some resp) ->
         multi_model._generate_image_from_gemini env prompt base_image
           stylist_advice = (None, None)).
Proof.
  split.
  - destruct (gemini.parts resp) as [own|e] eqn:Hown.
    2:{ unfold multi_model._extract_image_bytes, multi_model.parts_iterables
          in Hempty.
        rewrite Hown in Hempty. discriminate Hempty. }
    rewrite (extract_image_bytes_scan env resp own Hown) in Hempty.
    destruct (extraction_spec.first_some _) as [[b m]|] eqn:F;
      [|discriminate].
    inversion Hempty; subst b m. apply first_some_found in F.
    destruct F as (before & p & after & Hall & _ & Hp).
    assert (Hin : In p (extraction_spec.all_parts resp own))
      by (rewrite Hall; apply in_elt).
    clear Hall Hempty. exists own, p.
    unfold multi_model.extract_part, multi_model.inline_branch,
      multi_model.file_branch in Hp.
    destruct p as [[[[[[|x b]|text|t]|] mime]|] fd];
      cbn -[multi_model._download_file_bytes] in Hp;
      repeat (match type of Hp with
              | context [match ?x with _ => _ end] =>
                  lazymatch x with
                  | context [match _ with _ => _ end] => fail
                  | _ => destruct x eqn:?
                  end
              end;
              cbn -[multi_model._download_file_bytes] in Hp;
              try discriminate Hp).
    all: inversion Hp; subst;
      try match goal with
          | H : multi_model.nonempty_bytes [] = true |- _ => discriminate H
          end.
    all: exists text; split; [reflexivity|]; split; [exact Hin|];
      split; [reflexivity|].
    all: split; [now apply String.eqb_neq | assumption].
  - intros prompt base_image stylist_advice Hcall.
    apply (generate_image_no_bytes env _ _ _ (Some resp) Hcall).
    right. left. now exists reported.
Qed.

(** X8, witness: inline text that decodes to nothing comes before a part
    with inline bytes. *)
Lemma extraction_empty_only_from_text_witness :
  exists own p text,
    gemini.parts stubs.text_response = Ok own
    /\ In p (extraction_spec.all_parts stubs.text_response own)
    /\ gemini.inline_data p
       = Some (gemini.mkBlob (Some (gemini.DataStr text)) (Some "image/png"))
    /\ text <> ""
    /\ b64decode stubs.env_bad_image text = Ok [].
Proof.
  apply (extraction_empty_only_from_text stubs.env_bad_image
           stubs.text_response (Some "image/png")).
  reflexivity.
Defined.

(* ===================================================================== *)
(** ** The stages when the model answers                                   *)
(* ===================================================================== *)

(** X9: when the trend generator answers, [fetch_trends] returns its text
    whole, while the entry it logs, of level [info], keeps the first 300
    characters of it. *)
Theorem fetch_trends_success (env : Env) (r : Run) (trends : string) :
  let visual := get (visual_analysis (st r)) [] in
  forall
    (Hok : FetchRelevantTrends env
             (dict_get visual "gender_style" "unisex")
             (dict_get visual "occasion" "casual")
             (get (user_query (st r)) "") = Ok trends),
  let res := fst (trending.fetch_trends env r) in
  trending.tr_trend_summary res = trends
  /\ exists started produced,
       trending.tr_agent_logs res = (logs_of r ++ [started; produced])%list
       /\ message produced = "Produced trend summary"
       /\ level produced = "info"
       /\ details produced = Some (slice_to 300 trends)
       /\ String.length (slice_to 300 trends) <= 300.
Proof.
  intros visual Hok res. unfold res, trending.fetch_trends.
  fold visual. rewrite Hok. split; [reflexivity|].
  do 2 eexists. split.
  - cbn [fst trending.tr_agent_logs].
    rewrite !(proj1 (append_agent_log_spec _ _ _ _ _ _)).
    rewrite <- app_assoc. reflexivity.
  - repeat split. apply slice_to_length.
Qed.

(** X9, witness: the mocked generator of [test_trending_agent]. *)
Lemma fetch_trends_success_witness :
  trending.tr_trend_summary
    (fst (trending.fetch_trends demo.env_ok (mkRun demo.bare_state 0)))
  = "**Casual Style:** Popular trends include...".
Proof.
  apply (fetch_trends_success demo.env_ok (mkRun demo.bare_state 0)).
  reflexivity.
Defined.

(** X10: when the advisor answers, [synthesize_advice] returns its text
    whole as [final_report]; the advisor is asked with the five features
    of the visual analysis, ["unisex"], ["unknown"] and ["casual"]
    standing in for absent keys, and the entry logged, of level [info],
    keeps the first 300 characters of the advice. *)
Theorem synthesize_advice_success (env : Env) (r : Run) (advice : string) :
  let visual := get (visual_analysis (st r)) [] in
  forall
    (Hok : SynthesizeStylingAdvice env (get (user_query (st r)) "")
             (dict_get visual "gender_style" "unisex")
             (dict_get visual "cut" "unknown")
             (dict_get visual "color" "unknown")
             (dict_get visual "fabric" "unknown")
             (dict_get visual "occasion" "casual")
             (get (trend_summary (st r)) "") = Ok advice),
  let res := fst (analysis.synthesize_advice env r) in
  analysis.adv_final_report res = advice
  /\ exists started completed,
       analysis.adv_agent_logs res = (logs_of r ++ [started; completed])%list
       /\ message completed = "Completed styling advice"
       /\ level completed = "info"
       /\ details completed = Some (slice_to 300 advice)
       /\ String.length (slice_to 300 advice) <= 300.
Proof.
  intros visual Hok res. unfold res, analysis.synthesize_advice.
  set (r1 := logs.append_agent_log env r _ _ _ _).
  change (visual_analysis (st r1)) with (visual_analysis (st r)).
  change (trend_summary (st r1)) with (trend_summary (st r)).
  change (user_query (st r1)) with (user_query (st r)).
  fold visual. rewrite Hok. split; [reflexivity|].
  do 2 eexists. split.
  - cbn [fst analysis.adv_agent_logs].
    rewrite (proj1 (append_agent_log_spec _ _ _ _ _ _)). unfold r1.
    rewrite (proj1 (append_agent_log_spec _ _ _ _ _ _)).
    rewrite <- app_assoc. reflexivity.
  - repeat split. apply slice_to_length.
Qed.

(** X10, witness: the mocked advisor of [test_analysis_agent]. *)
Lemma synthesize_advice_success_witness :
  analysis.adv_final_report
    (fst (analysis.synthesize_advice demo.env_ok (mkRun demo.outfit_state 0)))
  = "This outfit works well for casual occasions...".
Proof.
  apply (synthesize_advice_success demo.env_ok (mkRun demo.outfit_state 0)).
  reflexivity.
Defined.

(** X11: the key [error] is in the visual analysis exactly when the
    [try] block of [analyze_image] raised; without it the five features
    are those the analyzer returned, and the completion entry has level
    [info] exactly then. *)
Theorem analyze_image_error_key_marks_failure (env : Env) (r : Run) :
  let res := fst (multi_model.analyze_image env r) in
  let va := multi_model.vis_visual_analysis res in
  let attempt :=
    multi_model.vision_attempt env (multi_model.vision_model_of (st r))
      (st r) in
  (dict_mem va "error" = true <-> exists e, attempt = Raise e)
  /\ (dict_mem va "error" = false
      <-> exists f,
            attempt = Ok f
            /\ va = [("gender_style", r_gender_style f); ("cut", r_cut f);
                     ("color", r_color f); ("fabric", r_fabric f);
                     ("occasion", r_occasion f)])
  /\ exists started finished,
       multi_model.vis_agent_logs res
       = (logs_of r ++ [started; finished])%list
       /\ (level finished = "info" <-> dict_mem va "error" = false)
       /\ (level finished = "error" <-> dict_mem va "error" = true).
Proof.
  intros res va attempt.
  unfold va, res, multi_model.analyze_image.
  rewrite vision_attempt_after_log. fold attempt.
  destruct attempt as [f|e].
  - split; [|split].
    + split; [discriminate | intros (e & H); discriminate H].
    + split; [intros _; now exists f | reflexivity].
    + do 2 eexists. split.
      * cbn [fst multi_model.vis_agent_logs].
        rewrite !(proj1 (append_agent_log_spec _ _ _ _ _ _)).
        rewrite <- app_assoc. reflexivity.
      * split; split; try reflexivity; discriminate.
  - split; [|split].
    + split; [intros _; now exists e | reflexivity].
    + split; [discriminate | intros (f & H & _); discriminate H].
    + do 2 eexists. split.
      * cbn [fst multi_model.vis_agent_logs].
        rewrite !(proj1 (append_agent_log_spec _ _ _ _ _ _)).
        rewrite <- app_assoc. reflexivity.
      * split; split; try reflexivity; discriminate.
Qed.

(** X12: on a state without [original_image] the lookup raises a
    [KeyError] inside the [try] block, after the model object has been
    built and before any picture is opened or any model is asked: the
    stage returns the degraded analysis with the error text
    ['original_image']. *)
Theorem analyze_image_without_image
    (env : Env) (r : Run)
    (Hmissing : original_image (st r) = None)
    (Hmodel : GenerativeModel env (multi_model.vision_model_of (st r))
              = Ok tt) :
  multi_model.vis_visual_analysis (fst (multi_model.analyze_image env r))
  = [("gender_style", "unknown"); ("cut", "unknown"); ("color", "unknown");
     ("fabric", "unknown"); ("occasion", "unknown");
     ("error", "'original_image'")].
Proof.
  unfold multi_model.analyze_image. rewrite vision_attempt_after_log.
  unfold multi_model.vision_attempt, multi_model.index_original_image.
  rewrite Hmodel, Hmissing. reflexivity.
Qed.

(** X12, witness: a state with a query and a mode only. *)
Lemma analyze_image_without_image_witness :
  dict_get
    (multi_model.vis_visual_analysis
       (fst (multi_model.analyze_image demo.env_ok
               (mkRun stubs.imageless_state 0))))
    "error" "" = "'original_image'".
Proof.
  rewrite (analyze_image_without_image demo.env_ok
             (mkRun stubs.imageless_state 0) eq_refl eq_refl).
  reflexivity.
Defined.

(* ===================================================================== *)
(** ** [configure_lm]                                                      *)
(* ===================================================================== *)

Lemma lm_normalized (mode : string) :
  (if dict_mem config.LM_MAP (lower mode) then lower mode else "deep")
  = if String.eqb (lower mode) "quick" then "quick" else "deep".
Proof.
  unfold config.LM_MAP. cbn [dict_mem].
  rewrite (String.eqb_sym "quick"), (String.eqb_sym "deep").
  destruct (String.eqb (lower mode) "quick") eqn:Q; cbn [orb].
  - apply String.eqb_eq in Q. now rewrite Q.
  - rewrite orb_false_r.
    destruct (String.eqb (lower mode) "deep") eqn:D; [|reflexivity].
    now apply String.eqb_eq in D.
Qed.

(** X13: once [configure_lm] has succeeded for a mode, a further call for
    the same mode, in any letter case, answers from the remembered mode:
    it returns the same model name, leaves the remembered mode alone and
    does not depend on DSPy, so it succeeds even where configuring would
    raise. *)
Theorem configure_lm_cached
    (env : Env) (current : option string) (mode : string)
    (name : string) (current' : option string)
    (Hfirst : config.configure_lm env current mode = Ok (name, current')) :
  forall env' mode',
    lower mode' = lower mode ->
    config.configure_lm env' current' mode' = Ok (name, current').
Proof.
  intros env' mode' Hsame.
  unfold config.configure_lm in *. rewrite Hsame.
  set (normalized := if dict_mem config.LM_MAP (lower mode)
                     then lower mode else "deep") in *.
  assert (Hc : current' = Some normalized
               /\ name = dict_get config.LM_MAP normalized "").
  { destruct current as [m|].
    - destruct (String.eqb_spec m normalized) as [->|_].
      + now inversion Hfirst.
      + destruct (dspy_configure env _); now inversion Hfirst.
    - destruct (dspy_configure env _); now inversion Hfirst. }
  destruct Hc as [-> ->]. now rewrite String.eqb_refl.
Qed.

(** X13, witness: a second call in capitals, against an environment in
    which configuring DSPy raises. *)
Lemma configure_lm_cached_witness :
  config.configure_lm stubs.env_bad_image (Some "quick") "QUICK"
  = Ok ("gemini/gemini-2.5-flash", Some "quick").
Proof.
  apply (configure_lm_cached demo.env_ok None "quick"
           "gemini/gemini-2.5-flash" (Some "quick") eq_refl
           stubs.env_bad_image "QUICK").
  reflexivity.
Defined.

(** X14: [configure_lm] knows two modes: a mode that lowercases to
    [quick] selects the flash model, every other string selects the pro
    model of [deep]; it raises only when the remembered mode differs and
    configuring DSPy raises, and otherwise remembers the mode it used. *)
Theorem configure_lm_falls_back_to_deep
    (env : Env) (current : option string) (mode : string) :
  let normalized :=
    if String.eqb (lower mode) "quick" then "quick" else "deep" in
  let model_name :=
    if String.eqb (lower mode) "quick"
    then "gemini/gemini-2.5-flash" else "gemini/gemini-2.5-pro" in
  (forall name current',
      config.configure_lm env current mode = Ok (name, current') ->
      name = model_name /\ current' = Some normalized)
  /\ (forall e,
         config.configure_lm env current mode = Raise e
         <-> current <> Some normalized
             /\ dspy_configure env model_name = Raise e).
Proof.
  intros normalized model_name.
  unfold config.configure_lm. rewrite lm_normalized. fold normalized.
  assert (Hname : dict_get config.LM_MAP normalized "" = model_name).
  { unfold normalized, model_name.
    destruct (String.eqb (lower mode) "quick"); reflexivity. }
  rewrite Hname. split.
  - intros name current' H. destruct current as [m|].
    + destruct (String.eqb_spec m normalized) as [->|_].
      * now inversion H.
      * destruct (dspy_configure env model_name) as [[]|];
          now inversion H.
    + destruct (dspy_configure env model_name) as [[]|]; now inversion H.
  - intros e. destruct current as [m|].
    + destruct (String.eqb_spec m normalized) as [->|Hne].
      * split; [discriminate | intros [H _]; now elim H].
      * destruct (dspy_configure env model_name) as [[]|e'];
          cbn [bind]; split.
        -- discriminate.
        -- intros [_ H]; discriminate H.
        -- intros H; inversion H. split; [congruence | reflexivity].
        -- intros [_ H]. now inversion H.
    + destruct (dspy_configure env model_name) as [[]|e']; cbn [bind];
        split.
      * discriminate.
      * intros [_ H]; discriminate H.
      * intros H; inversion H. split; [discriminate | reflexivity].
      * intros [_ H]. now inversion H.
Qed.

(* ===================================================================== *)
(** ** More on the [/analyze] route                                        *)
(* ===================================================================== *)

Section RouteOutcome.

Variable env : Env.
Variable current_mode : option string.

Lemma requested_mode_cases (req : analyze.Request) :
  route_kinds.requested_mode req = "quick"
  \/ route_kinds.requested_mode req = "deep".
Proof.
  unfold route_kinds.requested_mode. cbv zeta.
  destruct (String.eqb_spec (lower (get (analyze.form_mode req) "deep"))
              "quick") as [->|_]; [now left|].
  destruct (String.eqb_spec (lower (get (analyze.form_mode req) "deep"))
              "deep") as [->|_]; simpl; now right.
Qed.

(** What the handler does with an upload that passes the checks. *)
Lemma accepted_upload (req : analyze.Request) :
  route_kinds.accepted req = true ->
  exists file,
    analyze.files_image req = Some file
    /\ analyze.analyze_outfit env current_mode req
       = let mode := route_kinds.requested_mode req in
         let initial_state :=
           analyze.initial_state_of (analyze.payload file)
             (get (analyze.form_query req) analyze.DEFAULT_QUERY) mode in
         match config.configure_lm env current_mode mode with
         | Raise e =>
             analyze.mkServed
               (analyze.JsonError [("error", "Internal server error");
                                   ("details", exn_str e)])
               500 [analyze.ConfiguredLM mode] current_mode
         | Ok (_, mode') =>
             let result := supervisor.invoke env initial_state in
             analyze.mkServed
               (analyze.JsonResult
                  (analyze.mkResponseData
                     (visual_analysis result) (trend_summary result)
                     (final_report result) (generated_image_url result)
                     (get (agent_logs result) []) mode
                     (generation_prompt result)
                     (image_generation_error result)))
               200
               [analyze.ConfiguredLM mode; analyze.BuiltState initial_state;
                analyze.InvokedGraph initial_state]
               mode'
         end.
Proof.
  unfold route_kinds.accepted, analyze.analyze_outfit,
    analyze._validate_request.
  destruct (analyze.files_image req) as [file|]; [|discriminate].
  intros H. apply andb_true_iff in H. destruct H as [H Hsize].
  apply andb_true_iff in H. destruct H as [Hname Hext].
  exists file. split; [reflexivity|].
  apply negb_true_iff in Hname. rewrite Hname, Hext. cbn [negb].
  rewrite N.ltb_antisym, Hsize. reflexivity.
Qed.

Lemma refused_upload (req : analyze.Request) :
  route_kinds.accepted req = false ->
  analyze.status (analyze.analyze_outfit env current_mode req) = 400
  /\ analyze.events (analyze.analyze_outfit env current_mode req) = []
  /\ analyze.mode_after (analyze.analyze_outfit env current_mode req)
     = current_mode.
Proof.
  unfold route_kinds.accepted, analyze.analyze_outfit,
    analyze._validate_request.
  destruct (analyze.files_image req) as [file|]; [|now repeat split].
  destruct (String.eqb (analyze.filename file) ""); [now repeat split|].
  destruct (analyze._allowed_file (analyze.filename file));
    [|now repeat split].
  cbn [negb andb]. rewrite N.ltb_antisym. intros ->. now repeat split.
Qed.

Lemma invoke_log_length (initial : AgentState) :
  List.length (get (agent_logs (supervisor.invoke env initial)) [])
  = List.length (get (agent_logs initial) []) + 8.
Proof.
  pose proof (analyze_image_appends env (supervisor.after env 0 initial))
    as (s1 & f1 & L1 & _).
  change (supervisor.analyze_image_node env (supervisor.after env 0 initial))
    with (supervisor.after env 1 initial) in L1.
  pose proof (fetch_trends_appends env (supervisor.after env 1 initial))
    as (s2 & f2 & L2 & _).
  change (supervisor.fetch_trends_node env (supervisor.after env 1 initial))
    with (supervisor.after env 2 initial) in L2.
  pose proof (synthesize_advice_appends env (supervisor.after env 2 initial))
    as (s3 & f3 & L3 & _).
  change (supervisor.synthesize_advice_node env
            (supervisor.after env 2 initial))
    with (supervisor.after env 3 initial) in L3.
  pose proof (generate_outfit_appends env (supervisor.after env 3 initial))
    as (s4 & f4 & L4 & _).
  change (supervisor.generate_outfit_node env
            (supervisor.after env 3 initial))
    with (supervisor.after env 4 initial) in L4.
  change (get (agent_logs (supervisor.invoke env initial)) [])
    with (logs_of (supervisor.after env 4 initial)).
  rewrite L4, L3, L2, L1, !length_app. simpl. unfold logs_of. simpl. lia.
Qed.

Lemma invoke_image_cases (initial : AgentState) :
  let final := supervisor.invoke env initial in
  (exists rest,
      generated_image_url final = Some ("data:" ++ rest)
      /\ image_generation_error final = None)
  \/ (generated_image_url final = None
      /\ image_generation_error final = Some multi_model.NO_CONTENT).
Proof.
  intros final.
  destruct (invoke_fields env initial) as (_ & _ & _ & _ & _ & _ & _ & U).
  cbv zeta in U. fold final in U.
  unfold dataflow.image_value in U.
  match type of U with
  | context [multi_model._generate_image_from_gemini env ?p ?b ?a] =>
      pose proof (generate_image_shape env p b a) as Hs
  end.
  cbv zeta in Hs. destruct Hs as [Hs | (mime & b & Hs)]; rewrite Hs in U;
    cbn [fst] in U.
  - injection U as Hu He. right. now split.
  - change (multi_model.data_url mime (b64encode b))
      with (String "d" ("ata:" ++ mime ++ ";base64," ++ b64encode b)) in U.
    cbv beta iota in U. injection U as Hu He. left.
    exists (mime ++ ";base64," ++ b64encode b). split; [exact Hu | exact He].
Qed.

Lemma vision_value_keys (s : AgentState) (k : string) :
  In k multi_model.FEATURE_KEYS ->
  dict_mem (dataflow.vision_value env s) k = true.
Proof.
  revert k. unfold dataflow.vision_value.
  destruct (multi_model.vision_attempt env _ _);
    apply forall_feature_keys; reflexivity.
Qed.

End RouteOutcome.

(** [configure_lm] raises only out of DSPy, asked for the model of the
    normalized mode, and only when another mode is remembered. *)
Lemma configure_lm_raises (env : Env) (current : option string)
    (mode : string) (e : exn) :
  config.configure_lm env current mode = Raise e ->
  current <> Some (if String.eqb (lower mode) "quick" then "quick" else "deep")
  /\ dspy_configure env
       (if String.eqb (lower mode) "quick"
        then "gemini/gemini-2.5-flash" else "gemini/gemini-2.5-pro")
     = Raise e.
Proof.
  unfold config.configure_lm. rewrite lm_normalized.
  set (normalized := if String.eqb (lower mode) "quick"
                     then "quick" else "deep").
  assert (Hname : dict_get config.LM_MAP normalized ""
                  = if String.eqb (lower mode) "quick"
                    then "gemini/gemini-2.5-flash"
                    else "gemini/gemini-2.5-pro").
  { unfold normalized.
    destruct (String.eqb (lower mode) "quick"); reflexivity. }
  rewrite Hname. intros H. destruct current as [m|].
  - destruct (String.eqb_spec m normalized) as [->|Hdiff];
      [discriminate H|].
    split; [intros Hs; now inversion Hs|].
    destruct (dspy_configure env _); now inversion H.
  - split; [discriminate|].
    destruct (dspy_configure env _); now inversion H.
Qed.

(** X15: when an upload that has been read passes the four checks and
    configuring the language model raises, the route answers 500 with the
    text of the exception under [details]; it builds no state, does not
    invoke the graph and leaves the remembered mode as it was. Such a
    failure comes from DSPy, asked for the model of the requested mode,
    and only when the remembered mode is another one. *)
Theorem analyze_outfit_configuration_failure
    (env : Env) (current_mode : option string) (req : analyze.Request)
    (e : exn)
    (Haccepted : route_kinds.accepted req = true)
    (Hraise : config.configure_lm env current_mode
                (route_kinds.requested_mode req) = Raise e) :
  let served := analyze.analyze_outfit env current_mode req in
  let mode := route_kinds.requested_mode req in
  analyze.status served = 500
  /\ analyze.body served
     = analyze.JsonError [("error", "Internal server error");
                          ("details", exn_str e)]
  /\ analyze.events served = [analyze.ConfiguredLM mode]
  /\ analyze.mode_after served = current_mode
  /\ current_mode <> Some mode
  /\ dspy_configure env
       (if String.eqb mode "quick"
        then "gemini/gemini-2.5-flash" else "gemini/gemini-2.5-pro")
     = Raise e.
Proof.
  intros served mode.
  destruct (accepted_upload env current_mode req Haccepted) as (file & _ & E).
  unfold served, mode. rewrite E. cbv zeta. rewrite Hraise.
  do 4 (split; [reflexivity|]). fold mode. fold mode in Hraise.
  pose proof (configure_lm_raises env current_mode mode e Hraise) as H.
  destruct (requested_mode_cases req) as [Hm | Hm]; fold mode in Hm;
    rewrite Hm in H |- *; exact H.
Qed.

(** X15, witness: a small JPEG against an environment in which
    configuring DSPy raises. *)
Lemma analyze_outfit_configuration_failure_witness :
  analyze.status
    (analyze.analyze_outfit stubs.env_bad_image None stubs.good_request) = 500
  /\ analyze.body
       (analyze.analyze_outfit stubs.env_bad_image None stubs.good_request)
     = analyze.JsonError [("error", "Internal server error");
                          ("details", "invalid API key")]
  /\ analyze.events
       (analyze.analyze_outfit stubs.env_bad_image None stubs.good_request)
     = [analyze.ConfiguredLM "quick"].
Proof.
  destruct (analyze_outfit_configuration_failure stubs.env_bad_image None
              stubs.good_request (mkExn "invalid API key") eq_refl eq_refl)
    as (Hs & Hb & He & _).
  split; [exact Hs|]. split; [exact Hb | exact He].
Defined.

(** X16: the body of a 200 answer is always complete: the mode is [quick]
    or [deep], the visual analysis has the five feature keys, the trend
    summary and the report are strings, the prompt is not empty, the log
    holds the eight entries of the run, and either the image is a data
    URL and the error is null, or the image is null and the error is the
    no-content message. *)
Theorem analyze_outfit_ok_response
    (env : Env) (current_mode : option string) (req : analyze.Request)
    (name : string) (mode' : option string)
    (Haccepted : route_kinds.accepted req = true)
    (Hconfigured : config.configure_lm env current_mode
                     (route_kinds.requested_mode req) = Ok (name, mode')) :
  exists d,
    analyze.body (analyze.analyze_outfit env current_mode req)
    = analyze.JsonResult d
    /\ analyze.resp_analysis_mode d = route_kinds.requested_mode req
    /\ (analyze.resp_analysis_mode d = "quick"
        \/ analyze.resp_analysis_mode d = "deep")
    /\ (exists va,
           analyze.resp_visual_analysis d = Some va
           /\ forall k, In k multi_model.FEATURE_KEYS -> dict_mem va k = true)
    /\ (exists trends, analyze.resp_trend_summary d = Some trends)
    /\ (exists advice, analyze.resp_final_report d = Some (VStr advice))
    /\ (exists prompt,
           analyze.resp_generation_prompt d = Some prompt /\ prompt <> "")
    /\ List.length (analyze.resp_agent_logs d) = 8
    /\ ((exists rest,
            analyze.resp_generated_image_url d = Some ("data:" ++ rest)
            /\ analyze.resp_image_generation_error d = None)
        \/ (analyze.resp_generated_image_url d = None
            /\ analyze.resp_image_generation_error d
               = Some "Gemini image generation returned no content")).
Proof.
  destruct (accepted_upload env current_mode req Haccepted)
    as (file & Hf & E).
  rewrite E. cbv zeta. rewrite Hconfigured.
  set (initial := analyze.initial_state_of _ _ _).
  eexists. split; [reflexivity|].
  cbn [analyze.resp_analysis_mode analyze.resp_visual_analysis
       analyze.resp_trend_summary analyze.resp_final_report
       analyze.resp_generation_prompt analyze.resp_agent_logs
       analyze.resp_generated_image_url
       analyze.resp_image_generation_error].
  destruct (invoke_fields env initial) as (_ & _ & _ & V & T & F & P & _).
  cbv zeta in V, T, F, P.
  split; [reflexivity|]. split; [apply requested_mode_cases|].
  split; [eexists; split; [exact V | apply vision_value_keys]|].
  split; [eexists; exact T|]. split; [eexists; exact F|].
  split.
  - eexists. split; [exact P|]. unfold dataflow.prompt_value.
    rewrite build_prompt_unfolded. discriminate.
  - split; [apply (invoke_log_length env initial)|].
    apply (invoke_image_cases env initial).
Qed.

(** X16, witness: the small JPEG against the stub in which every call
    answers. *)
Lemma analyze_outfit_ok_response_witness :
  exists d,
    analyze.body (analyze.analyze_outfit demo.env_ok None stubs.good_request)
    = analyze.JsonResult d
    /\ analyze.resp_analysis_mode d = "quick"
    /\ List.length (analyze.resp_agent_logs d) = 8.
Proof.
  destruct (analyze_outfit_ok_response demo.env_ok None stubs.good_request
              "gemini/gemini-2.5-flash" (Some "quick") eq_refl eq_refl)
    as (d & Hb & Hm & _ & _ & _ & _ & _ & Hl & _).
  exists d. split; [exact Hb|]. split; [exact Hm | exact Hl].
Defined.

Lemma configure_lm_name (env : Env) (current : option string)
    (mode name : string) (current' : option string) :
  config.configure_lm env current mode = Ok (name, current') ->
  name = if String.eqb (lower mode) "quick"
         then "gemini/gemini-2.5-flash" else "gemini/gemini-2.5-pro".
Proof.
  unfold config.configure_lm. rewrite lm_normalized.
  set (normalized := if String.eqb (lower mode) "quick"
                     then "quick" else "deep").
  assert (Hname : dict_get config.LM_MAP normalized ""
                  = if String.eqb (lower mode) "quick"
                    then "gemini/gemini-2.5-flash"
                    else "gemini/gemini-2.5-pro").
  { unfold normalized.
    destruct (String.eqb (lower mode) "quick"); reflexivity. }
  rewrite Hname. intros H. destruct current as [m|].
  - destruct (String.eqb m normalized); [now inversion H|].
    destruct (dspy_configure env _); now inversion H.
  - destruct (dspy_configure env _); now inversion H.
Qed.

(** X17: for every request the handler lets through, the language model
    it configures for DSPy and the vision model the first stage picks
    from the state are the same Gemini variant, whatever the form sent as
    mode. *)
Theorem route_models_agree
    (env : Env) (current_mode : option string) (req : analyze.Request)
    (name : string) (mode' : option string)
    (Hconfigured : config.configure_lm env current_mode
                     (route_kinds.requested_mode req) = Ok (name, mode')) :
  forall image query,
    name = "gemini/"
           ++ multi_model.vision_model_of
                (analyze.initial_state_of image query
                   (route_kinds.requested_mode req)).
Proof.
  intros image query. apply configure_lm_name in Hconfigured.
  destruct (requested_mode_cases req) as [E|E]; rewrite E in *;
    exact Hconfigured.
Qed.

(** X17, witness: the mode [QUICK] of the form selects the flash variant
    twice. *)
Lemma route_models_agree_witness :
  "gemini/gemini-2.5-flash"
  = "gemini/"
    ++ multi_model.vision_model_of
         (analyze.initial_state_of [x66; x61; x6b; x65] "Casual look"
            (route_kinds.requested_mode stubs.good_request)).
Proof.
  apply (route_models_agree demo.env_ok None stubs.good_request
           "gemini/gemini-2.5-flash" (Some "quick") eq_refl).
Defined.

(* ===================================================================== *)
(** ** The details of the entries of a run                                 *)
(* ===================================================================== *)

Section RunDetails.

Import run_compare.

Variable env : Env.

Lemma sliced_details_bound (n m : nat) (s d : string) :
  Some (slice_to n s) = Some d -> n <= m -> String.length d <= m.
Proof.
  intros H Hn. injection H as <-. pose proof (slice_to_length n s). lia.
Qed.

Ltac entry_bounded :=
  unfold info_details_bounded;
  cbn [level details logs.render_details dict_to_pyval];
  intros Hlevel d Hd;
  first
    [ discriminate Hlevel
    | discriminate Hd
    | eapply sliced_details_bound; [exact Hd | lia] ].

Ltac two_bounded_entries :=
  do 2 eexists; split;
  [ cbn [logs_of st agent_logs get supervisor.merge_vision
         supervisor.merge_trends supervisor.merge_advice
         supervisor.merge_outfit fst snd
         multi_model.vis_agent_logs trending.tr_agent_logs
         analysis.adv_agent_logs multi_model.out_agent_logs];
    repeat (rewrite (proj1 (append_agent_log_spec _ _ _ _ _ _))
            || rewrite logs_of_with_error);
    rewrite <- app_assoc; reflexivity
  | split; entry_bounded ].

Lemma analyze_image_info_bounded (r : Run) :
  exists started finished,
    logs_of (supervisor.analyze_image_node env r)
    = (logs_of r ++ [started; finished])%list
    /\ info_details_bounded started /\ info_details_bounded finished.
Proof.
  unfold supervisor.analyze_image_node, supervisor.node,
    multi_model.analyze_image.
  destruct (multi_model.vision_attempt env _ _); two_bounded_entries.
Qed.

Lemma fetch_trends_info_bounded (r : Run) :
  exists started finished,
    logs_of (supervisor.fetch_trends_node env r)
    = (logs_of r ++ [started; finished])%list
    /\ info_details_bounded started /\ info_details_bounded finished.
Proof.
  unfold supervisor.fetch_trends_node, supervisor.node,
    trending.fetch_trends.
  destruct (FetchRelevantTrends env _ _ _); two_bounded_entries.
Qed.

Lemma synthesize_advice_info_bounded (r : Run) :
  exists started finished,
    logs_of (supervisor.synthesize_advice_node env r)
    = (logs_of r ++ [started; finished])%list
    /\ info_details_bounded started /\ info_details_bounded finished.
Proof.
  unfold supervisor.synthesize_advice_node, supervisor.node,
    analysis.synthesize_advice.
  destruct (SynthesizeStylingAdvice env _ _ _ _ _ _ _); two_bounded_entries.
Qed.

Lemma generate_outfit_info_bounded (r : Run) :
  exists started finished,
    logs_of (supervisor.generate_outfit_node env r)
    = (logs_of r ++ [started; finished])%list
    /\ info_details_bounded started /\ info_details_bounded finished.
Proof.
  unfold supervisor.generate_outfit_node, supervisor.node,
    multi_model.generate_outfit.
  destruct (multi_model.outfit_line _); [|two_bounded_entries].
  destruct (multi_model._generate_image_from_gemini env _ _ _) as [u m].
  destruct (truthy _); two_bounded_entries.
Qed.

End RunDetails.

(** X18: every entry of level [info] that a run of the graph appends
    carries at most 800 characters of details; only the entries that
    report a failure, whose details are the text of the exception, are
    not bounded. *)
Theorem run_info_details_bounded (env : Env) (initial : AgentState) :
  exists appended,
    get (agent_logs (supervisor.invoke env initial)) []
    = (get (agent_logs initial) [] ++ appended)%list
    /\ Forall run_compare.info_details_bounded appended.
Proof.
  pose proof (analyze_image_info_bounded env (supervisor.after env 0 initial))
    as (s1 & f1 & L1 & Bs1 & Bf1).
  change (supervisor.analyze_image_node env (supervisor.after env 0 initial))
    with (supervisor.after env 1 initial) in L1.
  pose proof (fetch_trends_info_bounded env (supervisor.after env 1 initial))
    as (s2 & f2 & L2 & Bs2 & Bf2).
  change (supervisor.fetch_trends_node env (supervisor.after env 1 initial))
    with (supervisor.after env 2 initial) in L2.
  pose proof (synthesize_advice_info_bounded env
                (supervisor.after env 2 initial))
    as (s3 & f3 & L3 & Bs3 & Bf3).
  change (supervisor.synthesize_advice_node env
            (supervisor.after env 2 initial))
    with (supervisor.after env 3 initial) in L3.
  pose proof (generate_outfit_info_bounded env
                (supervisor.after env 3 initial))
    as (s4 & f4 & L4 & Bs4 & Bf4).
  change (supervisor.generate_outfit_node env
            (supervisor.after env 3 initial))
    with (supervisor.after env 4 initial) in L4.
  exists [s1; f1; s2; f2; s3; f3; s4; f4]. split.
  - change (get (agent_logs (supervisor.invoke env initial)) [])
      with (logs_of (supervisor.after env 4 initial)).
    rewrite L4, L3, L2, L1. rewrite <- !app_assoc. reflexivity.
  - repeat (apply Forall_cons; [assumption|]). apply Forall_nil.
Qed.

(* ===================================================================== *)
(** ** The JSON rendering of structured details                            *)
(* ===================================================================== *)

Section JsonAscii.

Import run_compare.

Lemma all_printable_app (a b : string) :
  all_printable (a ++ b) = all_printable a && all_printable b.
Proof.
  induction a as [|c a IH]; simpl; [reflexivity|].
  now rewrite IH, andb_assoc.
Qed.

Lemma json_escape_char_printable (c : ascii) :
  all_printable (json_escape_char c) = true.
Proof.
  destruct c as [[] [] [] [] [] [] [] []]; vm_compute; reflexivity.
Qed.

Lemma json_escape_printable (s : string) :
  all_printable (json_escape s) = true.
Proof.
  induction s as [|c s IH]; simpl; [reflexivity|].
  now rewrite all_printable_app, json_escape_char_printable, IH.
Qed.

Lemma json_quote_printable (s : string) :
  all_printable (json_quote s) = true.
Proof.
  unfold json_quote. cbn [all_printable].
  rewrite all_printable_app, json_escape_printable. reflexivity.
Qed.

Lemma join_printable (parts : list string) :
  Forall (fun p => all_printable p = true) parts ->
  all_printable (join ", " parts) = true.
Proof.
  induction 1 as [|p parts Hp Hrest IH]; [reflexivity|].
  destruct parts as [|q parts]; [exact Hp|].
  change (join ", " (p :: q :: parts))
    with (p ++ ", " ++ join ", " (q :: parts)).
  rewrite !all_printable_app, Hp, IH. reflexivity.
Qed.

Lemma json_dumps_printable : forall v, all_printable (json_dumps v) = true.
Proof.
  fix IH 1. intros [|[|]|s|l|d]; try reflexivity.
  - apply json_quote_printable.
  - change (json_dumps (VList l))
      with ("[" ++ join ", " (map json_dumps l) ++ "]").
    rewrite !all_printable_app, join_printable; [reflexivity|].
    induction l as [|x l IHl]; constructor; [apply IH | exact IHl].
  - change (json_dumps (VDict d))
      with ("{" ++ join ", "
                     (map (fun kv : string * pyval =>
                             let (k, x) := kv in
                             json_quote k ++ ": " ++ json_dumps x) d)
                ++ "}").
    rewrite !all_printable_app, join_printable; [reflexivity|].
    induction d as [|[k x] d IHd]; constructor; [|exact IHd].
    rewrite !all_printable_app, json_quote_printable, IH. reflexivity.
Qed.

Lemma slice_to_printable (n : nat) (s : string) :
  all_printable s = true -> all_printable (slice_to n s) = true.
Proof.
  revert s. induction n as [|n IH]; intros [|c s]; simpl; try reflexivity.
  intros H. apply andb_true_iff in H. destruct H as [Hc Hs].
  now rewrite Hc, IH.
Qed.

End JsonAscii.

(** X19: the details stored for a [dict] or a [list] are plain printable
    ASCII, whatever characters the values hold: [ensure_ascii] escapes
    every quote, backslash, control character and non-ASCII character,
    and the cut to 800 characters keeps that. *)
Theorem structured_details_are_ascii
    (env : Env) (r : Run) (a m l : string) (d : pyval)
    (Hstructured : is_dict_or_list d = true) :
  exists e s,
    logs_of (logs.append_agent_log env r a m l d) = (logs_of r ++ [e])%list
    /\ details e = Some s
    /\ run_compare.all_printable s = true
    /\ String.length s <= 800.
Proof.
  destruct (append_agent_log_spec env r a m l d) as [Hl _].
  eexists. exists (slice_to 800 (json_dumps d)).
  split; [exact Hl|]. split; [|split].
  - destruct d; try discriminate Hstructured; reflexivity.
  - apply slice_to_printable, json_dumps_printable.
  - apply slice_to_length.
Qed.

(** X19, witness: a value with a quote, a line break and an accented
    letter. *)
Lemma structured_details_are_ascii_witness :
  exists e s,
    logs_of (logs.append_agent_log demo.env_ok (mkRun demo.bare_state 0)
               "vision" "Completed image analysis" "info"
               (VDict [("color",
                        VStr (String (ascii_of_nat 34)
                                (String (ascii_of_nat 10)
                                   (String (ascii_of_nat 233) "cru"))))]))
    = ([] ++ [e])%list
    /\ details e = Some s
    /\ run_compare.all_printable s = true
    /\ String.length s <= 800.
Proof.
  apply (structured_details_are_ascii demo.env_ok (mkRun demo.bare_state 0)).
  reflexivity.
Defined.

(* ===================================================================== *)
(** ** Runs against different clocks                                       *)
(* ===================================================================== *)

Section ClockFree.

Import run_compare.

Variable env : Env.
Variable clock : nat -> Z.

Lemma extract_part_clock (p : gemini.Part) :
  multi_model.extract_part (with_clock env clock) p
  = multi_model.extract_part env p.
Proof. reflexivity. Qed.

Lemma scan_parts_clock (ps : list gemini.Part) :
  multi_model.scan_parts (with_clock env clock) ps
  = multi_model.scan_parts env ps.
Proof.
  induction ps as [|p ps IH]; simpl; [reflexivity|].
  now rewrite extract_part_clock, IH.
Qed.

Lemma scan_iterables_clock (pss : list (list gemini.Part)) :
  multi_model.scan_iterables (with_clock env clock) pss
  = multi_model.scan_iterables env pss.
Proof.
  induction pss as [|ps pss IH]; simpl; [reflexivity|].
  now rewrite scan_parts_clock, IH.
Qed.

Lemma generate_image_clock (prompt : string) (base_image : option bytes)
    (stylist_advice : option string) :
  multi_model._generate_image_from_gemini (with_clock env clock) prompt
    base_image stylist_advice
  = multi_model._generate_image_from_gemini env prompt base_image
      stylist_advice.
Proof.
  unfold multi_model._generate_image_from_gemini,
    multi_model._extract_image_bytes.
  change (GenerativeModel (with_clock env clock)) with (GenerativeModel env).
  change (generate_image (with_clock env clock)) with (generate_image env).
  change (multi_model.reference_messages (with_clock env clock) base_image)
    with (multi_model.reference_messages env base_image).
  destruct (GenerativeModel env multi_model.IMAGE_MODEL); [|reflexivity].
  cbn [bind]. destruct (generate_image env _) as [[resp|]|]; try reflexivity.
  cbn [bind]. destruct (multi_model.parts_iterables resp); [|reflexivity].
  cbn [bind]. now rewrite scan_iterables_clock.
Qed.

Ltac related_logs Hl :=
  cbn [st agent_logs get supervisor.merge_vision supervisor.merge_trends
       supervisor.merge_advice supervisor.merge_outfit fst snd
       multi_model.vis_agent_logs trending.tr_agent_logs
       analysis.adv_agent_logs multi_model.out_agent_logs];
  repeat (rewrite (proj1 (append_agent_log_spec _ _ _ _ _ _))
          || rewrite logs_of_with_error);
  rewrite !map_app; unfold logs_of; cbn [st agent_logs];
  rewrite Hl; reflexivity.

Ltac open_states r1 r2 H :=
  destruct r1 as [[oi1 uq1 va1 ts1 fr1 gu1 gp1 al1 am1 ie1] n1];
  destruct r2 as [[oi2 uq2 va2 ts2 fr2 gu2 gp2 al2 am2 ie2] n2];
  unfold same_but_time in H |- *;
  cbn [st original_image user_query visual_analysis trend_summary
       final_report generated_image_url generation_prompt agent_logs
       analysis_mode image_generation_error] in H;
  destruct H as (-> & -> & -> & -> & -> & -> & -> & -> & -> & Hl).

Lemma analyze_image_node_clock (r1 r2 : Run) :
  same_but_time (st r1) (st r2) ->
  same_but_time (st (supervisor.analyze_image_node env r1))
    (st (supervisor.analyze_image_node (with_clock env clock) r2)).
Proof.
  intros H. open_states r1 r2 H.
  unfold supervisor.analyze_image_node, supervisor.node,
    multi_model.analyze_image.
  rewrite !vision_attempt_after_log. cbn [st].
  match goal with
  | |- context [multi_model.vision_attempt (with_clock env clock) ?m ?s] =>
      change (multi_model.vision_attempt (with_clock env clock) m s)
        with (multi_model.vision_attempt env m
                (mkState oi2 uq2 va2 ts2 fr2 gu2 gp2 al1 am2 ie2))
  end.
  destruct (multi_model.vision_attempt env _ _);
    repeat (split; [reflexivity|]); related_logs Hl.
Qed.

Lemma fetch_trends_node_clock (r1 r2 : Run) :
  same_but_time (st r1) (st r2) ->
  same_but_time (st (supervisor.fetch_trends_node env r1))
    (st (supervisor.fetch_trends_node (with_clock env clock) r2)).
Proof.
  intros H. open_states r1 r2 H.
  unfold supervisor.fetch_trends_node, supervisor.node,
    trending.fetch_trends.
  cbn [st visual_analysis user_query analysis_mode].
  change (FetchRelevantTrends (with_clock env clock))
    with (FetchRelevantTrends env).
  destruct (FetchRelevantTrends env _ _ _);
    repeat (split; [reflexivity|]); related_logs Hl.
Qed.

Lemma synthesize_advice_node_clock (r1 r2 : Run) :
  same_but_time (st r1) (st r2) ->
  same_but_time (st (supervisor.synthesize_advice_node env r1))
    (st (supervisor.synthesize_advice_node (with_clock env clock) r2)).
Proof.
  intros H. open_states r1 r2 H.
  unfold supervisor.synthesize_advice_node, supervisor.node,
    analysis.synthesize_advice.
  cbn [st visual_analysis user_query analysis_mode trend_summary
       logs.append_agent_log set_agent_logs].
  change (SynthesizeStylingAdvice (with_clock env clock))
    with (SynthesizeStylingAdvice env).
  destruct (SynthesizeStylingAdvice env _ _ _ _ _ _ _);
    repeat (split; [reflexivity|]); related_logs Hl.
Qed.

Lemma generate_outfit_node_clock (r1 r2 : Run) :
  same_but_time (st r1) (st r2) ->
  same_but_time (st (supervisor.generate_outfit_node env r1))
    (st (supervisor.generate_outfit_node (with_clock env clock) r2)).
Proof.
  intros H. open_states r1 r2 H.
  unfold supervisor.generate_outfit_node, supervisor.node,
    multi_model.generate_outfit.
  cbn [st visual_analysis user_query analysis_mode final_report
       original_image multi_model.with_error clock_reads
       set_image_generation_error logs.append_agent_log set_agent_logs].
  destruct (multi_model.outfit_line _).
  - rewrite generate_image_clock.
    destruct (multi_model._generate_image_from_gemini env _ _ _) as [u m].
    destruct (truthy _);
      repeat (split; [reflexivity|]); related_logs Hl.
  - repeat (split; [reflexivity|]); related_logs Hl.
Qed.

End ClockFree.

(** X20: two runs of the graph on the same state against the same
    models, read against different clocks, end in states that differ in
    nothing but the timestamps of the log entries: every field, and every
    agent, message, level and details of the log, is the same. *)
Theorem run_independent_of_clock
    (env : Env) (clock : nat -> Z) (initial : AgentState) :
  run_compare.same_but_time
    (supervisor.invoke env initial)
    (supervisor.invoke (run_compare.with_clock env clock) initial).
Proof.
  unfold supervisor.invoke, supervisor.run_nodes, supervisor.graph_order.
  cbn [fold_left].
  apply generate_outfit_node_clock, synthesize_advice_node_clock,
    fetch_trends_node_clock, analyze_image_node_clock.
  unfold run_compare.same_but_time. now repeat split.
Qed.

(* ===================================================================== *)
(** ** More on the file name check                                         *)
(* ===================================================================== *)

Lemma lower_char_idempotent (c : ascii) :
  lower_char (lower_char c) = lower_char c.
Proof. destruct c as [[] [] [] [] [] [] [] []]; reflexivity. Qed.

Lemma lower_char_dot (c : ascii) :
  Ascii.eqb (lower_char c) "." = Ascii.eqb c ".".
Proof. destruct c as [[] [] [] [] [] [] [] []]; reflexivity. Qed.

Lemma lower_idempotent (s : string) : lower (lower s) = lower s.
Proof.
  induction s as [|c s IH]; simpl; [reflexivity|].
  now rewrite lower_char_idempotent, IH.
Qed.

Lemma lower_keeps_dots (s : string) :
  contains_char "." (lower s) = contains_char "." s.
Proof.
  induction s as [|c s IH]; simpl; [reflexivity|].
  now rewrite lower_char_dot, IH.
Qed.

Lemma allowed_file_of_extension (stem ext : string) :
  contains_char "." ext = false ->
  analyze._allowed_file (stem ++ "." ++ ext)
  = existsb (String.eqb (lower ext)) analyze.ALLOWED_EXTENSIONS.
Proof.
  intros Hno. unfold analyze._allowed_file.
  change ("." ++ ext) with (String "." ext).
  rewrite contains_char_app, (rsplit1_at_last _ _ _ Hno).
  cbn [contains_char item1 nth_error].
  rewrite Ascii.eqb_refl, orb_true_l, orb_true_r. reflexivity.
Qed.

(** X21: the file name check looks at nothing but the text after the last
    dot, and at that without regard to letter case: two names with the
    same extension are judged alike, whatever comes before the dot (even
    nothing, or a path), and a name that ends in a dot is refused. *)
Theorem allowed_file_ignores_stem_and_case
    (stem1 stem2 ext : string) (Hext : contains_char "." ext = false) :
  analyze._allowed_file (stem1 ++ "." ++ ext)
  = analyze._allowed_file (stem2 ++ "." ++ lower ext)
  /\ analyze._allowed_file (stem1 ++ ".") = false.
Proof.
  split.
  - rewrite (allowed_file_of_extension stem1 ext Hext).
    rewrite (allowed_file_of_extension stem2 (lower ext)).
    + now rewrite lower_idempotent.
    + now rewrite lower_keeps_dots.
  - change (stem1 ++ ".") with (stem1 ++ "." ++ "").
    now rewrite allowed_file_of_extension.
Qed.

(** X21, witness: a path in capitals and a bare extension. *)
Lemma allowed_file_ignores_stem_and_case_witness :
  analyze._allowed_file ("../uploads/IMG.0001" ++ "." ++ "WebP")
  = analyze._allowed_file ("" ++ "." ++ lower "WebP").
Proof.
  apply (allowed_file_ignores_stem_and_case "../uploads/IMG.0001" "" "WebP").
  reflexivity.
Defined.

(* ===================================================================== *)
(** ** The readings of the clock in a run                                  *)
(* ===================================================================== *)

(** X22: a run of the graph reads the clock eight times, once for each
    entry it appends, and the entries carry those readings in order, cut
    to whole seconds. *)
Theorem run_reads_clock_once_per_entry (env : Env) (initial : AgentState) :
  exists appended,
    get (agent_logs (supervisor.invoke env initial)) []
    = (get (agent_logs initial) [] ++ appended)%list
    /\ map timestamp appended
       = map (fun k => (now_utc env k / 1000000)%Z) (seq 0 8)
    /\ clock_reads (supervisor.after env 4 initial) = 8.
Proof.
  pose proof (analyze_image_appends env (supervisor.after env 0 initial))
    as (s1 & f1 & L1 & C1 & _ & _ & _ & _ & Ts1 & Tf1).
  change (supervisor.analyze_image_node env (supervisor.after env 0 initial))
    with (supervisor.after env 1 initial) in L1, C1.
  pose proof (fetch_trends_appends env (supervisor.after env 1 initial))
    as (s2 & f2 & L2 & C2 & _ & _ & _ & _ & Ts2 & Tf2).
  change (supervisor.fetch_trends_node env (supervisor.after env 1 initial))
    with (supervisor.after env 2 initial) in L2, C2.
  pose proof (synthesize_advice_appends env (supervisor.after env 2 initial))
    as (s3 & f3 & L3 & C3 & _ & _ & _ & _ & Ts3 & Tf3).
  change (supervisor.synthesize_advice_node env
            (supervisor.after env 2 initial))
    with (supervisor.after env 3 initial) in L3, C3.
  pose proof (generate_outfit_appends env (supervisor.after env 3 initial))
    as (s4 & f4 & L4 & C4 & _ & _ & _ & _ & Ts4 & Tf4).
  change (supervisor.generate_outfit_node env
            (supervisor.after env 3 initial))
    with (supervisor.after env 4 initial) in L4, C4.
  change (clock_reads (supervisor.after env 0 initial)) with 0 in *.
  rewrite C1 in *. rewrite C2 in *. rewrite C3 in *.
  exists [s1; f1; s2; f2; s3; f3; s4; f4]. split; [|split].
  - change (get (agent_logs (supervisor.invoke env initial)) [])
      with (logs_of (supervisor.after env 4 initial)).
    rewrite L4, L3, L2, L1. rewrite <- !app_assoc. reflexivity.
  - cbn [map seq]. rewrite Ts1, Tf1, Ts2, Tf2, Ts3, Tf3, Ts4, Tf4.
    reflexivity.
  - exact C4.
Qed.
